(** * ReactionCog: the anchor-tracking and lineup-synchronisation engine

    A shallow embedding of [cogs/reactions.py].

    - The attributes of the cog are a record [Cog]: the order list, the
      name dict (a [gmap]), the identity of the lineup message and the set
      of anchors (a [gset]).  The three configured values are constants.
    - [_add_user], [_remove_user] and [_lineup_text] touch only the
      attributes: they are state-passing functions whose result is an
      [Outcome], since [list.remove] and a dict lookup can raise.
    - The listeners and the slash command live in the monad [M]: it threads
      the attributes and a log of the platform calls, and reads what the
      platform answers from a [Platform], which may answer the same call
      differently as the log grows.  An exception leaves what was done
      before it in place, and [try_except] is Python's [try]/[except Exception].
    - A listener runs to completion: what another listener does while this
      one waits at an [await] is not part of the model. *)

From Stdlib Require Import Ascii String.
From stdpp Require Import base numbers list gmap strings pretty.

Set Default Proof Using "Type".

(** ** Python values *)

(** Exceptions the code can meet: the two built-in ones raised by the
    list and dict operations, and a failure reported by the platform
    (discord.NotFound, discord.HTTPException, ...), all of them subclasses
    of [Exception]. *)
Inductive exn : Type :=
| KeyError
| ValueError
| PlatformError (code : Z).

Inductive Outcome (A : Type) : Type :=
| Ok (a : A)
| Raise (e : exn).
Arguments Ok {A} a.
Arguments Raise {A} e.

(** Truthiness of an [int | None] attribute: [None] and [0] are falsy. *)
Definition truthy (o : option Z) : bool :=
  match o with
  | Some n => negb (n =? 0)%Z
  | None => false
  end.

(** [list.remove(x)]: drops the first occurrence, [ValueError] when there is none. *)
Fixpoint list_remove (x : Z) (l : list Z) : option (list Z) :=
  match l with
  | [] => None
  | y :: r => if decide (x = y) then Some r
              else match list_remove x r with
                   | Some r' => Some (y :: r')
                   | None => None
                   end
  end.

(** [enumerate(l)] *)
Fixpoint enumerate_from {A} (i : nat) (l : list A) : list (nat * A) :=
  match l with
  | [] => []
  | a :: r => (i, a) :: enumerate_from (S i) r
  end.
Definition enumerate {A} (l : list A) : list (nat * A) := enumerate_from 0 l.

(** [sep.join(l)] *)
Definition join (sep : string) (l : list string) : string := String.concat sep l.

Definition nl : string := String (ascii_of_nat 10) EmptyString.

(** ** Configuration, fixed in [__init__] *)

(** [reaction_emoji] is a unicode string, or the id of a custom emoji. *)
Inductive EmojiConfig : Type :=
| EmojiUnicode (s : string)
| EmojiId (n : Z).

Definition target_role_ids : gset Z :=
  {[ 776328568036392972%Z; 1282865161945874543%Z; 1416872124236431490%Z ]}.
Definition reaction_emoji : EmojiConfig := EmojiUnicode "✅".
Definition max_participants : nat := 5.

(** ** The cog's mutable attributes *)

Record Cog : Type := mkCog {
  participants_order : list Z;            (* preserves join order *)
  participants_names : gmap Z string;     (* user_id -> display name *)
  lineup_channel_id : option Z;
  lineup_message_id : option Z;
  anchor_messages : gset (Z * Z)
}.

(** The attributes after [__init__]. *)
Definition ReactionCog_init : Cog :=
  mkCog [] ∅ None None ∅.

Definition set_roster (order : list Z) (names : gmap Z string) (s : Cog) : Cog :=
  mkCog order names (lineup_channel_id s) (lineup_message_id s) (anchor_messages s).
Definition set_lineup (c m : option Z) (s : Cog) : Cog :=
  mkCog (participants_order s) (participants_names s) c m (anchor_messages s).
Definition set_anchors (a : gset (Z * Z)) (s : Cog) : Cog :=
  mkCog (participants_order s) (participants_names s)
        (lineup_channel_id s) (lineup_message_id s) a.

(** ** Helpers that only touch the attributes *)

Definition _is_anchor (s : Cog) (channel_id message_id : Z) : bool :=
  bool_decide ((channel_id, message_id) ∈ anchor_messages s).

Definition _add_user (user_id : Z) (display_name : string) (s : Cog) : Cog * Outcome bool :=
  if bool_decide (is_Some (participants_names s !! user_id)) then (s, Ok false)
  else if bool_decide (max_participants ≤ length (participants_order s)) then (s, Ok false)
  else (set_roster (participants_order s ++ [user_id])
                   (<[user_id := display_name]> (participants_names s)) s,
        Ok true).

Definition _remove_user (user_id : Z) (s : Cog) : Cog * Outcome bool :=
  if bool_decide (participants_names s !! user_id = None) then (s, Ok false)
  else match list_remove user_id (participants_order s) with
       | None => (s, Raise ValueError)
       | Some order' =>
           (set_roster order' (delete user_id (participants_names s)) s, Ok true)
       end.

(** [[self.participants_names[uid] for uid in self.participants_order]] *)
Fixpoint lookup_names (names : gmap Z string) (order : list Z) : Outcome (list string) :=
  match order with
  | [] => Ok []
  | uid :: r =>
      match names !! uid with
      | None => Raise KeyError
      | Some n => match lookup_names names r with
                  | Ok ns => Ok (n :: ns)
                  | Raise e => Raise e
                  end
      end
  end.

Definition empty_text : string := "📭 **Lineup is empty.** React with ✅ to join.".
Definition plain_header : string := "📋 **Current Lineup**".
Definition ready_header (mentions : string) : string :=
  "📋 **Current Lineup (READY)** — " +:+ mentions.
Definition mention (uid : Z) : string := "<@" +:+ pretty uid +:+ ">".
Definition line (p : nat * string) : string := pretty (fst p + 1) +:+ ". " +:+ snd p.

Definition _lineup_text (s : Cog) : Outcome string :=
  match participants_order s with
  | [] => Ok empty_text
  | _ =>
      match lookup_names (participants_names s) (participants_order s) with
      | Raise e => Raise e
      | Ok names =>
          let lines := map line (enumerate names) in
          let header :=
            if bool_decide (length (participants_order s) = max_participants)
            then ready_header (join " " (map mention (participants_order s)))
            else plain_header in
          Ok (header +:+ nl +:+ join nl lines)
      end
  end.

(** ** Platform objects, as far as the cog reads them *)

Record Channel : Type := mkChannel { channel_id : Z }.
Record Guild : Type := mkGuild { guild_id : Z }.
Record Role : Type := mkRole { role_id : Z }.

(** What [getattr(e, "id", None)], [getattr(e, "name", None)] and [str(e)]
    give on an [Emoji], a [PartialEmoji] or a plain [str]. *)
Record EmojiObj : Type := mkEmoji {
  emoji_id : option Z;
  emoji_name : option string;
  emoji_str : string
}.

(** [discord.User | discord.Member] *)
Inductive UserObj : Type :=
| User (id : Z) (name display_name : string)
| Member (id : Z) (name display_name : string).

Definition user_id (u : UserObj) : Z :=
  match u with User i _ _ | Member i _ _ => i end.
Definition user_name (u : UserObj) : string :=
  match u with User _ n _ | Member _ n _ => n end.
Definition user_display_name (u : UserObj) : string :=
  match u with User _ _ d | Member _ _ d => d end.
Definition is_member (u : UserObj) : bool :=
  match u with User _ _ _ => false | Member _ _ _ => true end.

Record Message : Type := mkMessage {
  message_id : Z;
  message_channel : Channel;
  message_author : UserObj;
  message_role_mentions : list Role;
  message_reactions : list EmojiObj      (* [r.emoji for r in msg.reactions] *)
}.

Record Reaction : Type := mkReaction {
  reaction_emoji_obj : EmojiObj;
  reaction_message : Message
}.

Record RawReactionActionEvent : Type := mkPayload {
  payload_user_id : Z;
  payload_channel_id : Z;
  payload_message_id : Z;
  payload_guild_id : option Z;
  payload_emoji : EmojiObj
}.

Record Interaction : Type := mkInteraction { interaction_channel : Channel }.

(** ** Calls to the platform and their log *)

Inductive Call : Type :=
| CGetChannel (id : Z)
| CGetGuild (id : Z)
| CGetMember (g : Guild) (uid : Z)
| CFetchMessage (ch : Channel) (mid : Z)
| CSend (ch : Channel) (content : string)
| CEdit (msg : Message) (content : string)
| CAddReaction (msg : Message) (e : EmojiConfig)
| CRemoveReaction (msg : Message) (e : EmojiObj)
| CDefer
| CEditOriginalResponse (content : string)
| CPrint (e : option exn).

(** What came back from a call. *)
Inductive Reply : Type :=
| RNone                       (* a lookup found nothing *)
| RChannel (ch : Channel)
| RGuild (g : Guild)
| RMember (u : UserObj)
| RMessage (msg : Message)
| RDone
| RRaise (e : exn).

(** The log: every call with its reply, oldest first. *)
Definition Trace : Type := list (Call * Reply).

(** The platform answers a call from everything that was called before, so
    that the same call can succeed once and fail later. *)
Record Platform : Type := mkPlatform {
  bot_user_id : Z;
  get_channel : Trace → Z → option Channel;
  get_guild : Trace → Z → option Guild;
  get_member : Trace → Guild → Z → option UserObj;
  fetch_message : Trace → Channel → Z → Outcome Message;
  send : Trace → Channel → string → Outcome Message;
  edit : Trace → Message → string → Outcome unit;
  add_reaction : Trace → Message → EmojiConfig → Outcome unit;
  remove_reaction : Trace → Message → EmojiObj → Outcome unit;
  defer : Trace → Outcome unit;
  edit_original_response : Trace → string → Outcome unit
}.

Record World : Type := mkWorld { cog : Cog; trace : Trace }.

(** ** The monad of the listeners *)

Definition M (A : Type) : Type := Platform → World → World * Outcome A.

Definition ret {A} (a : A) : M A := λ _ w, (w, Ok a).
Definition bind {A B} (m : M A) (k : A → M B) : M B :=
  λ P w, match m P w with
         | (w', Ok a) => k a P w'
         | (w', Raise e) => (w', Raise e)
         end.
Definition raise {A} (e : exn) : M A := λ _ w, (w, Raise e).

(** [try: m except Exception as e: h e]; what [m] did before it raised stays done. *)
Definition try_except {A} (m : M A) (h : exn → M A) : M A :=
  λ P w, match m P w with
         | (w', Ok a) => (w', Ok a)
         | (w', Raise e) => h e P w'
         end.

Global Instance M_ret : MRet M := @ret.
Global Instance M_bind : MBind M := λ A B k m, bind m k.

Definition get_cog : M Cog := λ _ w, (w, Ok (cog w)).
Definition modify (f : Cog → Cog) : M unit := λ _ w, (mkWorld (f (cog w)) (trace w), Ok tt).
Definition lift {A} (f : Cog → Cog * Outcome A) : M A :=
  λ _ w, let '(s, r) := f (cog w) in (mkWorld s (trace w), r).
Definition lift_outcome {A} (r : Outcome A) : M A := λ _ w, (w, r).

Definition log (c : Call) (r : Reply) (w : World) : World :=
  mkWorld (cog w) (trace w ++ [(c, r)]).

(** A cache lookup: never raises. *)
Definition lookup_call {A} (c : Call) (f : Platform → Trace → option A)
    (reply : A → Reply) : M (option A) :=
  λ P w, match f P (trace w) with
         | Some a => (log c (reply a) w, Ok (Some a))
         | None => (log c RNone w, Ok None)
         end.
(** An awaited request: answers or raises. *)
Definition request {A} (c : Call) (f : Platform → Trace → Outcome A)
    (reply : A → Reply) : M A :=
  λ P w, match f P (trace w) with
         | Ok a => (log c (reply a) w, Ok a)
         | Raise e => (log c (RRaise e) w, Raise e)
         end.

Definition bot_get_channel (id : Z) : M (option Channel) :=
  lookup_call (CGetChannel id) (λ P t, get_channel P t id) RChannel.
Definition bot_get_guild (id : Z) : M (option Guild) :=
  lookup_call (CGetGuild id) (λ P t, get_guild P t id) RGuild.
Definition guild_get_member (g : Guild) (uid : Z) : M (option UserObj) :=
  lookup_call (CGetMember g uid) (λ P t, get_member P t g uid) RMember.
Definition channel_fetch_message (ch : Channel) (mid : Z) : M Message :=
  request (CFetchMessage ch mid) (λ P t, fetch_message P t ch mid) RMessage.
Definition channel_send (ch : Channel) (content : string) : M Message :=
  request (CSend ch content) (λ P t, send P t ch content) RMessage.
Definition message_edit (msg : Message) (content : string) : M unit :=
  request (CEdit msg content) (λ P t, edit P t msg content) (λ _, RDone).
Definition message_add_reaction (msg : Message) (e : EmojiConfig) : M unit :=
  request (CAddReaction msg e) (λ P t, add_reaction P t msg e) (λ _, RDone).
Definition message_remove_reaction (msg : Message) (e : EmojiObj) : M unit :=
  request (CRemoveReaction msg e) (λ P t, remove_reaction P t msg e) (λ _, RDone).
Definition response_defer : M unit :=
  request CDefer (λ P t, defer P t) (λ _, RDone).
Definition interaction_edit_original_response (content : string) : M unit :=
  request (CEditOriginalResponse content) (λ P t, edit_original_response P t content)
          (λ _, RDone).
Definition print (e : option exn) : M unit :=
  λ _ w, (log (CPrint e) RDone w, Ok tt).
Definition the_bot_user_id : M Z := λ P w, (w, Ok (bot_user_id P)).

(** [for x in l: body x] *)
Fixpoint for_each {A} (l : list A) (body : A → M unit) : M unit :=
  match l with
  | [] => ret tt
  | x :: r => body x ;; for_each r body
  end.

(** ** The remaining helpers *)

Definition _emoji_matches (emoji_obj : EmojiObj) (expect : EmojiConfig) : bool :=
  match expect with
  | EmojiId n => bool_decide (emoji_id emoji_obj = Some n)
  | EmojiUnicode s =>
      bool_decide (emoji_name emoji_obj = Some s) || bool_decide (emoji_str emoji_obj = s)
  end.

Definition lineup_text : M string := s ← get_cog; lift_outcome (_lineup_text s).

Definition send_and_record (channel : Channel) : M unit :=
  text ← lineup_text;
  msg ← channel_send channel text;
  modify (set_lineup (Some (channel_id (message_channel msg))) (Some (message_id msg))).

Definition _ensure_lineup_message (channel : Channel) : M unit :=
  s ← get_cog;
  still_exists ←
    (if truthy (lineup_channel_id s) && truthy (lineup_message_id s) then
       match lineup_channel_id s, lineup_message_id s with
       | Some c, Some m =>
           ch ← bot_get_channel c;
           match ch with
           | Some ch => try_except (channel_fetch_message ch m ;; ret true)
                                   (λ _, ret false)
           | None => ret false
           end
       | _, _ => ret false
       end
     else ret false);
  if still_exists : bool then ret tt else send_and_record channel.

(** [_update_lineup_message] after its first line: edit the recorded
    message, recreate it if that fails. *)
Definition edit_or_recreate (channel : Channel) : M unit :=
  s ← get_cog;
  ch ← (match lineup_channel_id s with
         | Some c => if truthy (Some c) then bot_get_channel c else ret None
         | None => ret None
         end);
  match ch, lineup_message_id s with
  | Some ch, Some m =>
      if truthy (Some m) then
        try_except
          (msg ← channel_fetch_message ch m;
           text ← lineup_text;
           message_edit msg text)
          (λ _, send_and_record channel)
      else ret tt
  | _, _ => ret tt
  end.

Definition _update_lineup_message (channel : Channel) : M unit :=
  _ensure_lineup_message channel ;;
  edit_or_recreate channel.

Definition _remove_bots_reaction_on (channel_id message_id : Z) : M unit :=
  ch ← bot_get_channel channel_id;
  match ch with
  | None => ret tt
  | Some ch =>
      fetched ← try_except (msg ← channel_fetch_message ch message_id; ret (Some msg))
                           (λ _, ret None);
      match fetched with
      | None => ret tt
      | Some msg =>
          for_each (message_reactions msg) (λ e,
            if _emoji_matches e reaction_emoji
            then try_except (message_remove_reaction msg e) (λ _, ret tt)
            else ret tt)
      end
  end.

(** ** Listeners *)

Definition on_ready : M unit :=
  modify (set_roster [] ∅) ;;
  modify (set_anchors ∅) ;;
  print None.

Definition mentions_target_role (message : Message) : bool :=
  existsb (λ role, bool_decide (role_id role ∈ target_role_ids))
          (message_role_mentions message).

Definition on_message (message : Message) : M unit :=
  me ← the_bot_user_id;
  if bool_decide (user_id (message_author message) = me) then ret tt
  else if mentions_target_role message then
    try_except
      (message_add_reaction message reaction_emoji ;;
       modify (λ s, set_anchors
                      ({[ (channel_id (message_channel message), message_id message) ]}
                       ∪ anchor_messages s) s) ;;
       added ← lift (_add_user (user_id (message_author message))
                               (user_display_name (message_author message)));
       if added : bool then _update_lineup_message (message_channel message) else ret tt)
      (λ e, print (Some e))
  else ret tt.

Definition full_notice : string := "⚠️ The lineup is already full (max 5).".

Definition on_reaction_add (reaction : Reaction) (user : UserObj) : M unit :=
  me ← the_bot_user_id;
  s ← get_cog;
  if bool_decide (user_id user = me) then ret tt
  else if negb (_emoji_matches (reaction_emoji_obj reaction) reaction_emoji) then ret tt
  else if negb (_is_anchor s (channel_id (message_channel (reaction_message reaction)))
                             (message_id (reaction_message reaction))) then ret tt
  else
    let display := if is_member user then user_display_name user else user_name user in
    added ← lift (_add_user (user_id user) display);
    if added : bool then _update_lineup_message (message_channel (reaction_message reaction))
    else
      s' ← get_cog;
      if bool_decide (max_participants ≤ length (participants_order s')) then
        try_except (channel_send (message_channel (reaction_message reaction)) full_notice ;;
                    ret tt)
                   (λ _, ret tt)
      else ret tt.

Definition on_raw_reaction_add (payload : RawReactionActionEvent) : M unit :=
  me ← the_bot_user_id;
  s ← get_cog;
  if bool_decide (payload_user_id payload = me) then ret tt
  else if negb (_emoji_matches (payload_emoji payload) reaction_emoji) then ret tt
  else if negb (_is_anchor s (payload_channel_id payload) (payload_message_id payload))
  then ret tt
  else
    guild ← (match payload_guild_id payload with
             | Some g => if truthy (Some g) then bot_get_guild g else ret None
             | None => ret None
             end);
    display ← (match guild with
               | Some g =>
                   member ← guild_get_member g (payload_user_id payload);
                   match member with
                   | Some mem => ret (user_display_name mem)
                   | None => ret ("user_" +:+ pretty (payload_user_id payload))
                   end
               | None => ret ("user_" +:+ pretty (payload_user_id payload))
               end);
    ch ← bot_get_channel (payload_channel_id payload);
    match ch with
    | Some ch =>
        added ← lift (_add_user (payload_user_id payload) display);
        if added : bool then _update_lineup_message ch else ret tt
    | None => ret tt
    end.

Definition on_reaction_remove (reaction : Reaction) (user : UserObj) : M unit :=
  me ← the_bot_user_id;
  s ← get_cog;
  if bool_decide (user_id user = me) then ret tt
  else if negb (_emoji_matches (reaction_emoji_obj reaction) reaction_emoji) then ret tt
  else if negb (_is_anchor s (channel_id (message_channel (reaction_message reaction)))
                             (message_id (reaction_message reaction))) then ret tt
  else
    removed ← lift (_remove_user (user_id user));
    if removed : bool then _update_lineup_message (message_channel (reaction_message reaction))
    else ret tt.

Definition on_raw_reaction_remove (payload : RawReactionActionEvent) : M unit :=
  me ← the_bot_user_id;
  s ← get_cog;
  if bool_decide (payload_user_id payload = me) then ret tt
  else if negb (_emoji_matches (payload_emoji payload) reaction_emoji) then ret tt
  else if negb (_is_anchor s (payload_channel_id payload) (payload_message_id payload))
  then ret tt
  else
    ch ← bot_get_channel (payload_channel_id payload);
    match ch with
    | Some ch =>
        removed ← lift (_remove_user (payload_user_id payload));
        if removed : bool then _update_lineup_message ch else ret tt
    | None => ret tt
    end.

(** ** The slash command *)

Definition cleared_text : string := "🧹 Lineup cleared. Old mentions are no longer active.".

Definition retract_all (anchors : list (Z * Z)) : M unit :=
  for_each anchors (λ a, _remove_bots_reaction_on (fst a) (snd a)).

Definition clear (interaction : Interaction) : M unit :=
  response_defer ;;
  modify (set_roster [] ∅) ;;
  s ← get_cog;
  let anchors := elements (anchor_messages s) in
  modify (set_anchors ∅) ;;
  retract_all anchors ;;
  _update_lineup_message (interaction_channel interaction) ;;
  interaction_edit_original_response cleared_text.

(** ** The roster: invariants and sequences of calls *)

(** The three invariants of the roster. *)
Record roster_inv (s : Cog) : Prop := mk_roster_inv {
  inv_nodup : NoDup (participants_order s);
  inv_bound : length (participants_order s) ≤ max_participants;
  inv_names : ∀ uid : Z,
      uid ∈ participants_order s ↔ is_Some (participants_names s !! uid)
}.

(** A check of the invariants that computes. *)
Definition roster_ok (s : Cog) : bool :=
  bool_decide (NoDup (participants_order s))
  && bool_decide (length (participants_order s) ≤ max_participants)
  && bool_decide (list_to_set (participants_order s) =@{gset Z} dom (participants_names s)).

(** The calls a sequence is made of. *)
Inductive RosterOp : Type :=
| TryAdd (uid : Z) (display_name : string)
| TryRemove (uid : Z).

Definition run_op (op : RosterOp) (s : Cog) : Cog * Outcome bool :=
  match op with
  | TryAdd uid n => _add_user uid n s
  | TryRemove uid => _remove_user uid s
  end.

(** Runs the calls in turn and collects what they return; stops at a raise. *)
Fixpoint run_ops (ops : list RosterOp) (s : Cog) : Cog * Outcome (list bool) :=
  match ops with
  | [] => (s, Ok [])
  | op :: r =>
      match run_op op s with
      | (s', Ok b) => match run_ops r s' with
                      | (s'', Ok bs) => (s'', Ok (b :: bs))
                      | (s'', Raise e) => (s'', Raise e)
                      end
      | (s', Raise e) => (s', Raise e)
      end
  end.


(** ** The rendering, in the words of its description *)

(** A numbered list: the first name gets [k], the next [k + 1], and so on. *)
Fixpoint numbered_from (k : nat) (names : list string) : list string :=
  match names with
  | [] => []
  | n :: r => (pretty k +:+ ". " +:+ n) :: numbered_from (S k) r
  end.

(** The header of a text carries the ready annotation. *)
Definition ready_annotated (text : string) : bool :=
  String.prefix "📋 **Current Lineup (READY)**" text.

(** ** Sample rosters *)

Definition names_of (l : list (Z * string)) : gmap Z string := list_to_map l.

Definition cog_three : Cog :=
  mkCog [11; 22; 33]%Z (names_of [(11, "ann"); (22, "bob"); (33, "cyd")]%Z) None None ∅.

Definition cog_full : Cog :=
  mkCog [1; 2; 3; 4; 5]%Z
        (names_of [(1, "a"); (2, "b"); (3, "c"); (4, "d"); (5, "e")]%Z)
        None None {[ (10, 20)%Z ]}.

(** ** Reading the log *)

Definition is_lookup (ev : Call * Reply) : bool :=
  match ev.1 with
  | CGetChannel _ | CGetGuild _ | CGetMember _ _ => true
  | _ => false
  end.

Definition is_send (ev : Call * Reply) : bool :=
  match ev.1 with CSend _ _ => true | _ => false end.
Definition is_edit (ev : Call * Reply) : bool :=
  match ev.1 with CEdit _ _ => true | _ => false end.
Definition is_fetch (ev : Call * Reply) : bool :=
  match ev.1 with CFetchMessage _ _ => true | _ => false end.
Definition failed (ev : Call * Reply) : bool :=
  match ev.2 with RRaise _ => true | _ => false end.

(** The messages that were sent with success, oldest first. *)
Fixpoint sent_messages (t : Trace) : list Message :=
  match t with
  | [] => []
  | (CSend _ _, RMessage msg) :: r => msg :: sent_messages r
  | _ :: r => sent_messages r
  end.

(** ** Sample platforms and events *)

Definition bot_user : UserObj := User 999 "bot" "bot".

Definition fresh_message (t : Trace) (ch : Channel) : Message :=
  mkMessage (1000 + Z.of_nat (length t)) ch bot_user [] [].

(** Every call succeeds; a sent message gets an id from the length of the log. *)
Definition platform_ok : Platform := {|
  bot_user_id := 999;
  get_channel := λ _ id, Some (mkChannel id);
  get_guild := λ _ id, Some (mkGuild id);
  get_member := λ _ _ _, None;
  fetch_message := λ _ ch mid, Ok (mkMessage mid ch bot_user [] []);
  send := λ t ch _, Ok (fresh_message t ch);
  edit := λ _ _ _, Ok tt;
  add_reaction := λ _ _ _, Ok tt;
  remove_reaction := λ _ _ _, Ok tt;
  defer := λ _, Ok tt;
  edit_original_response := λ _ _, Ok tt
|}.


(** As [platform_ok], but no channel is in the cache and reactions cannot be added. *)
Definition platform_down : Platform := {|
  bot_user_id := 999;
  get_channel := λ _ _, None;
  get_guild := λ _ id, Some (mkGuild id);
  get_member := λ _ _ _, None;
  fetch_message := λ _ _ _, Raise (PlatformError 404);
  send := λ t ch _, Ok (fresh_message t ch);
  edit := λ _ _ _, Ok tt;
  add_reaction := λ _ _ _, Raise (PlatformError 403);
  remove_reaction := λ _ _ _, Ok tt;
  defer := λ _, Ok tt;
  edit_original_response := λ _ _, Ok tt
|}.

Definition check_mark : EmojiObj := mkEmoji None (Some "✅") "✅".

(** A message in channel 10 with id 20 that mentions the first target role. *)
Definition call_message : Message :=
  mkMessage 20 (mkChannel 10) (Member 11 "ann" "Ann") [mkRole 776328568036392972] [check_mark].

Definition check_reaction : Reaction := mkReaction check_mark call_message.

Definition check_payload (uid : Z) : RawReactionActionEvent :=
  mkPayload uid 10 20 (Some 1%Z) check_mark.

Definition world_three : World := mkWorld cog_three [].
Definition world_full : World := mkWorld cog_full [].

Definition cog_anchored : Cog :=
  mkCog [11; 22; 33]%Z (names_of [(11, "ann"); (22, "bob"); (33, "cyd")]%Z) None None
        {[ (10, 20)%Z ]}.
Definition world_anchored : World := mkWorld cog_anchored [].

(** ** Reading the log of a display sync *)

(** Every fetch or edit that failed is at once followed by a send of
    [text] to [channel]. *)
Fixpoint failure_then_send (channel : Channel) (text : string) (t : Trace) : Prop :=
  match t with
  | [] => True
  | ev :: r =>
      ((is_fetch ev || is_edit ev) && failed ev = true →
       ∃ reply, head r = Some (CSend channel text, reply)) ∧
      failure_then_send channel text r
  end.

(** The display-message identity after a call that logged [t]: that of the
    last message sent with success, or the old one when none was. *)
Definition recorded_after (s : Cog) (t : Trace) : option Z * option Z :=
  match last (sent_messages t) with
  | Some msg => (Some (channel_id (message_channel msg)), Some (message_id msg))
  | None => (lineup_channel_id s, lineup_message_id s)
  end.

(** What a call added to the log. *)
Definition new_events (w w' : World) : Trace := drop (length (trace w)) (trace w').

(** The shapes the log of a display sync can take.  What [_ensure_lineup_message]
    logs before it sends: nothing (no identity held), a channel lookup that
    found nothing, or a fetch that failed. *)
Inductive ensure_pre : Trace → Prop :=
| EP_none : ensure_pre []
| EP_no_channel c : ensure_pre [(CGetChannel c, RNone)]
| EP_gone c ch m e :
    ensure_pre [(CGetChannel c, RChannel ch); (CFetchMessage ch m, RRaise e)].

Inductive ensure_shape (channel : Channel) (text : string) (s : Cog) :
    Trace → Cog → Outcome unit → Prop :=
| ES_exists c ch m msg :
    ensure_shape channel text s
      [(CGetChannel c, RChannel ch); (CFetchMessage ch m, RMessage msg)] s (Ok tt)
| ES_sent pre msg :
    ensure_pre pre →
    ensure_shape channel text s (pre ++ [(CSend channel text, RMessage msg)])
      (set_lineup (Some (channel_id (message_channel msg))) (Some (message_id msg)) s)
      (Ok tt)
| ES_raise pre e :
    ensure_pre pre →
    ensure_shape channel text s (pre ++ [(CSend channel text, RRaise e)]) s (Raise e).

(** What [edit_or_recreate] logs before it sends: a fetch that failed, or
    an edit that failed. *)
Inductive recreate_pre (text : string) : Trace → Prop :=
| RP_gone c ch m e :
    recreate_pre text [(CGetChannel c, RChannel ch); (CFetchMessage ch m, RRaise e)]
| RP_edit_failed c ch m msg e :
    recreate_pre text [(CGetChannel c, RChannel ch); (CFetchMessage ch m, RMessage msg);
                       (CEdit msg text, RRaise e)].

Inductive edit_shape (channel : Channel) (text : string) (s : Cog) :
    Trace → Cog → Outcome unit → Prop :=
| DS_no_id : edit_shape channel text s [] s (Ok tt)
| DS_no_channel c : edit_shape channel text s [(CGetChannel c, RNone)] s (Ok tt)
| DS_no_message c ch : edit_shape channel text s [(CGetChannel c, RChannel ch)] s (Ok tt)
| DS_edited c ch m msg :
    edit_shape channel text s
      [(CGetChannel c, RChannel ch); (CFetchMessage ch m, RMessage msg);
       (CEdit msg text, RDone)] s (Ok tt)
| DS_sent pre msg :
    recreate_pre text pre →
    edit_shape channel text s (pre ++ [(CSend channel text, RMessage msg)])
      (set_lineup (Some (channel_id (message_channel msg))) (Some (message_id msg)) s)
      (Ok tt)
| DS_raise pre e :
    recreate_pre text pre →
    edit_shape channel text s (pre ++ [(CSend channel text, RRaise e)]) s (Raise e).

Inductive sync_shape (channel : Channel) (text : string) (s : Cog) :
    Trace → Cog → Outcome unit → Prop :=
| SS_raise t1 s1 e :
    ensure_shape channel text s t1 s1 (Raise e) →
    sync_shape channel text s t1 s1 (Raise e)
| SS_continue t1 s1 t2 s2 r :
    ensure_shape channel text s t1 s1 (Ok tt) →
    edit_shape channel text s1 t2 s2 r →
    sync_shape channel text s (t1 ++ t2) s2 r.

(** What the log of one display sync satisfies, with the attributes [s]
    before and [s'] after, and the outcome [r]. *)
Record sync_post (channel : Channel) (text : string) (s : Cog) (t' : Trace) (s' : Cog)
    (r : Outcome unit) : Prop := mk_sync_post {
  post_order : participants_order s' = participants_order s;
  post_names : participants_names s' = participants_names s;
  post_anchors : anchor_messages s' = anchor_messages s;
  post_sends : Forall (λ ev, is_send ev = true → ev.1 = CSend channel text) t';
  post_edits : Forall (λ ev, is_edit ev = true → ∃ msg, ev.1 = CEdit msg text) t';
  post_fallback : failure_then_send channel text t';
  post_one_edit : length (filter (λ ev, is_edit ev = true) t') ≤ 1;
  post_two_sends : length (filter (λ ev, is_send ev = true) t') ≤ 2;
  post_recorded : (lineup_channel_id s', lineup_message_id s') = recorded_after s t';
  post_raise : ∀ e, r = Raise e ↔ last t' = Some (CSend channel text, RRaise e)
}.

Definition world_init : World := mkWorld ReactionCog_init [].



(** ** Reading the log of a reset *)

(** The removals attempted on a fetched message: one for each of its
    reactions that matches the configured emoji, in order, whether the
    removal succeeded or raised. *)
Inductive removal_events (msg : Message) : list EmojiObj → Trace → Prop :=
| RE_nil : removal_events msg [] []
| RE_skip e es t :
    _emoji_matches e reaction_emoji = false →
    removal_events msg es t → removal_events msg (e :: es) t
| RE_try e es reply t :
    _emoji_matches e reaction_emoji = true →
    reply = RDone ∨ (∃ x, reply = RRaise x) →
    removal_events msg es t →
    removal_events msg (e :: es) ((CRemoveReaction msg e, reply) :: t).

(** The retraction attempted on one anchor: the channel is looked up; if it
    is found the message is fetched; if that works the bot's matching
    reactions are removed. *)
Inductive retraction_attempt (a : Z * Z) : Trace → Prop :=
| RA_no_channel : retraction_attempt a [(CGetChannel a.1, RNone)]
| RA_gone ch e :
    retraction_attempt a [(CGetChannel a.1, RChannel ch); (CFetchMessage ch a.2, RRaise e)]
| RA_fetched ch msg t :
    removal_events msg (message_reactions msg) t →
    retraction_attempt a
      ((CGetChannel a.1, RChannel ch) :: (CFetchMessage ch a.2, RMessage msg) :: t).

(** As [platform_ok], but message 20 is gone, and every other message
    carries the bot's check mark and a thumbs-up. *)
Definition thumbs_up : EmojiObj := mkEmoji None (Some "👍") "👍".

Definition platform_one_gone : Platform := {|
  bot_user_id := 999;
  get_channel := λ _ id, Some (mkChannel id);
  get_guild := λ _ id, Some (mkGuild id);
  get_member := λ _ _ _, None;
  fetch_message := λ _ ch mid,
    if (mid =? 20)%Z then Raise (PlatformError 404)
    else Ok (mkMessage mid ch bot_user [] [thumbs_up; check_mark]);
  send := λ t ch _, Ok (fresh_message t ch);
  edit := λ _ _ _, Ok tt;
  add_reaction := λ _ _ _, Ok tt;
  remove_reaction := λ _ _ _, Ok tt;
  defer := λ _, Ok tt;
  edit_original_response := λ _ _, Ok tt
|}.

Definition cog_two_anchors : Cog :=
  mkCog [11; 22; 33]%Z (names_of [(11, "ann"); (22, "bob"); (33, "cyd")]%Z) None None
        {[ (10, 20)%Z; (10, 21)%Z ]}.
Definition world_two_anchors : World := mkWorld cog_two_anchors [].

(** A logged call is the sending of the "lineup full" notice. *)
Definition is_full_notice (ev : Call * Reply) : Prop :=
  ∃ ch, ev.1 = CSend ch full_notice.

Definition cog_four : Cog :=
  mkCog [1; 2; 3; 4]%Z (names_of [(1, "a"); (2, "b"); (3, "c"); (4, "d")]%Z)
        None None {[ (10, 20)%Z ]}.
Definition world_four : World := mkWorld cog_four [].

(** The world after the raw listener handled user 5's reaction on the anchor. *)
Definition world_after_raw_join : World :=
  (on_raw_reaction_add (check_payload 5) platform_ok world_four).1.

(** * The rest of the event router *)

(** ** Events and their dispatch *)

(** The events the cog listens to, and the slash command. *)
Inductive Event : Type :=
| EvReady
| EvMessage (message : Message)
| EvReactionAdd (reaction : Reaction) (user : UserObj)
| EvRawReactionAdd (payload : RawReactionActionEvent)
| EvReactionRemove (reaction : Reaction) (user : UserObj)
| EvRawReactionRemove (payload : RawReactionActionEvent)
| EvClear (interaction : Interaction).

Definition handle (ev : Event) : M unit :=
  match ev with
  | EvReady => on_ready
  | EvMessage message => on_message message
  | EvReactionAdd reaction user => on_reaction_add reaction user
  | EvRawReactionAdd payload => on_raw_reaction_add payload
  | EvReactionRemove reaction user => on_reaction_remove reaction user
  | EvRawReactionRemove payload => on_raw_reaction_remove payload
  | EvClear interaction => clear interaction
  end.

(** The events are handled one after the other; a listener that raises
    does not stop the next one from running (the exception is reported by
    the dispatcher of the library), and what it did before it raised stays. *)
Fixpoint run_events (evs : list Event) (P : Platform) (w : World) : World :=
  match evs with
  | [] => w
  | ev :: r => run_events r P (handle ev P w).1
  end.

(** ** Invariants of a computation *)

(** [m] keeps a property of the attributes, whatever the platform answers
    and whether it returns or raises. *)
Definition preserves {A} (I : Cog → Prop) (m : M A) : Prop :=
  ∀ P w, I (cog w) → I (cog (m P w).1).

(** ** [cogs/messages.py]: the listener that only reacts *)

(** [MessageCog.on_message]: the test [any(...)] does not depend on the
    loop variable, so it is made once for each mentioned role. *)
Definition MessageCog_on_message (message : Message) : M unit :=
  me ← the_bot_user_id;
  if bool_decide (user_id (message_author message) = me) then ret tt
  else
    for_each (message_role_mentions message) (λ _,
      if mentions_target_role message
      then print None ;; message_add_reaction message (EmojiUnicode "✅")
      else ret tt).

(** The calls of a log that add a reaction. *)
Definition is_add_reaction (ev : Call * Reply) : bool :=
  match ev.1 with CAddReaction _ _ => true | _ => false end.

(** A property of the attributes that does not look at the identity of the
    lineup message. *)
Definition lineup_blind (I : Cog → Prop) : Prop :=
  ∀ c m s, I s → I (set_lineup c m s).

Definition is_reaction_event (ev : Event) : bool :=
  match ev with
  | EvReactionAdd _ _ | EvRawReactionAdd _ | EvReactionRemove _ _ | EvRawReactionRemove _ => true
  | _ => false
  end.

(** ** More sample platforms and events *)

Definition dan : UserObj := Member 44 "dan" "Dan".
Definition bob : UserObj := Member 22 "bob" "Bob".

(** A message of the bot itself, mentioning the first target role. *)
Definition bot_message : Message :=
  mkMessage 21 (mkChannel 10) bot_user [mkRole 776328568036392972] [].

(** A message that mentions two roles, one of them a target role. *)
Definition two_role_message : Message :=
  mkMessage 22 (mkChannel 10) dan [mkRole 776328568036392972; mkRole 5] [].

Definition lineup_message : Message := mkMessage 77 (mkChannel 10) bot_user [] [].

(** As [platform_ok], but every message sent is [lineup_message], and it is
    what a fetch returns. *)
Definition platform_steady : Platform := {|
  bot_user_id := 999;
  get_channel := λ _ id, Some (mkChannel id);
  get_guild := λ _ id, Some (mkGuild id);
  get_member := λ _ _ uid, if (uid =? 44)%Z then Some dan else None;
  fetch_message := λ _ _ _, Ok lineup_message;
  send := λ _ _ _, Ok lineup_message;
  edit := λ _ _ _, Ok tt;
  add_reaction := λ _ _ _, Ok tt;
  remove_reaction := λ _ _ _, Ok tt;
  defer := λ _, Ok tt;
  edit_original_response := λ _ _, Ok tt
|}.

(** As [platform_ok], but no message can be sent. *)
Definition platform_send_fails : Platform := {|
  bot_user_id := 999;
  get_channel := λ _ id, Some (mkChannel id);
  get_guild := λ _ id, Some (mkGuild id);
  get_member := λ _ _ _, None;
  fetch_message := λ _ ch mid, Ok (mkMessage mid ch bot_user [] []);
  send := λ _ _ _, Raise (PlatformError 500);
  edit := λ _ _ _, Ok tt;
  add_reaction := λ _ _ _, Ok tt;
  remove_reaction := λ _ _ _, Ok tt;
  defer := λ _, Ok tt;
  edit_original_response := λ _ _, Ok tt
|}.

(** The roster of three with the lineup message 77 in channel 10 recorded. *)
Definition cog_shown : Cog :=
  mkCog [11; 22; 33]%Z (names_of [(11, "ann"); (22, "bob"); (33, "cyd")]%Z)
        (Some 10%Z) (Some 77%Z) {[ (10, 20)%Z ]}.
Definition world_shown : World := mkWorld cog_shown [].
(** * Properties of the roster *)

Example lineup_text_two :
  _lineup_text (mkCog [7%Z; 3%Z] (<[7%Z := "ann"]> (<[3%Z := "bob"]> ∅)) None None ∅)
  = Ok ("📋 **Current Lineup**" +:+ nl +:+ "1. ann" +:+ nl +:+ "2. bob").
Proof. vm_compute. reflexivity. Qed.

Lemma roster_ok_inv s : roster_ok s = true → roster_inv s.
Proof.
  unfold roster_ok. rewrite !andb_true_iff, !bool_decide_eq_true.
  intros [[Hnd Hlen] Hdom]. split; [done..|].
  intros uid. by rewrite <- elem_of_dom, <- Hdom, elem_of_list_to_set.
Qed.

(** ** [list.remove] *)

Lemma list_remove_None x l : list_remove x l = None ↔ x ∉ l.
Proof.
  induction l as [|y l IH]; simpl.
  - split; [intros _; apply not_elem_of_nil | done].
  - rewrite not_elem_of_cons. case_decide as Hxy.
    + split; [done | intros [? _]; done].
    + destruct (list_remove x l) eqn:E.
      * split; [done|]. intros [_ Hn]. apply IH in Hn. done.
      * split; [|done]. intros _. split; [done | by apply IH].
Qed.

Lemma filter_ne_notin (x : Z) (l : list Z) :
  x ∉ l → filter (λ y, y ≠ x) l = l.
Proof.
  induction l as [|y l IH]; [done|]. intros [Hxy Hx]%not_elem_of_cons.
  rewrite filter_cons_True by congruence. f_equal. by apply IH.
Qed.

Lemma list_remove_Some_nodup x l l' :
  NoDup l → list_remove x l = Some l' → l' = filter (λ y, y ≠ x) l.
Proof.
  revert l'. induction l as [|y l IH]; intros l' Hnd; simpl; [done|].
  apply NoDup_cons in Hnd as [Hy Hnd]. case_decide as Hxy.
  - intros [= <-]. subst y. rewrite filter_cons_False by (intros ?; done).
    symmetry. by apply filter_ne_notin.
  - destruct (list_remove x l) eqn:E; [|done]. intros [= <-].
    rewrite filter_cons_True by congruence. f_equal. by apply IH.
Qed.

Lemma list_remove_length x l l' :
  list_remove x l = Some l' → length l = S (length l').
Proof.
  revert l'. induction l as [|y l IH]; intros l'; simpl; [done|].
  case_decide; [by intros [= <-]|].
  destruct (list_remove x l) eqn:E; [|done]. intros [= <-]. simpl.
  f_equal. by apply IH.
Qed.

(** ** One call keeps the invariants *)

Lemma add_user_inv uid n s :
  roster_inv s → ∃ b, (_add_user uid n s).2 = Ok b ∧ roster_inv (_add_user uid n s).1.
Proof.
  intros [Hnd Hlen Hnm]. unfold _add_user.
  case_bool_decide as Hin; [by exists false|].
  case_bool_decide as Hfull; [by exists false|].
  exists true. split; [done|]. split; simpl.
  - apply NoDup_app. split_and!; [done | | apply NoDup_singleton].
    intros x Hx ->%list_elem_of_singleton. apply Hin, Hnm, Hx.
  - rewrite length_app. simpl. lia.
  - intros x. rewrite elem_of_app, list_elem_of_singleton, lookup_insert_is_Some, Hnm.
    destruct (decide (uid = x)); intuition congruence.
Qed.

Lemma remove_user_inv uid s :
  roster_inv s → ∃ b, (_remove_user uid s).2 = Ok b ∧ roster_inv (_remove_user uid s).1.
Proof.
  intros [Hnd Hlen Hnm]. unfold _remove_user.
  case_bool_decide as Hin; [by exists false|].
  destruct (list_remove uid (participants_order s)) as [l'|] eqn:E.
  - exists true. split; [done|].
    pose proof (list_remove_Some_nodup _ _ _ Hnd E) as ->.
    pose proof (list_remove_length _ _ _ E) as Hl.
    split; simpl.
    + by apply NoDup_filter.
    + rewrite Hl in Hlen. lia.
    + intros x. rewrite list_elem_of_filter, lookup_delete_is_Some, Hnm. intuition congruence.
  - apply list_remove_None in E. exfalso. apply E, Hnm.
    by apply not_eq_None_Some.
Qed.

Lemma run_op_inv op s :
  roster_inv s → ∃ b, (run_op op s).2 = Ok b ∧ roster_inv (run_op op s).1.
Proof. destruct op; [apply add_user_inv | apply remove_user_inv]. Qed.

Lemma run_ops_inv ops s :
  roster_inv s → ∃ bs, (run_ops ops s).2 = Ok bs ∧ roster_inv (run_ops ops s).1.
Proof.
  revert s. induction ops as [|op ops IH]; intros s Hs; simpl.
  - by exists [].
  - destruct (run_op_inv op s Hs) as (b & Hb & Hs').
    destruct (run_op op s) as [s' r]; simpl in *; subst r.
    destruct (IH s' Hs') as (bs & Hbs & Hs'').
    destruct (run_ops ops s') as [s'' r]; simpl in *; subst r.
    by exists (b :: bs).
Qed.

Lemma init_inv : roster_inv ReactionCog_init.
Proof.
  split; simpl.
  - apply NoDup_nil_2.
  - unfold max_participants. lia.
  - intros uid. rewrite lookup_empty. split; [by intros ?%elem_of_nil | by intros [? ?]].
Qed.

(** C1. Whatever sequence of [_add_user] and [_remove_user] calls is run on
    the cog as [__init__] leaves it, every call returns (none raises), and
    afterwards no user id occurs twice in [participants_order], its length is
    at most 5, and a user id is in [participants_order] exactly when it is a
    key of [participants_names].  (A prefix of a sequence is a sequence, so
    this holds after every call.) *)
Theorem roster_invariant_all_sequences (ops : list RosterOp) :
  ∃ bs, (run_ops ops ReactionCog_init).2 = Ok bs ∧
    let s := (run_ops ops ReactionCog_init).1 in
    NoDup (participants_order s) ∧
    length (participants_order s) ≤ 5 ∧
    ∀ uid : Z, uid ∈ participants_order s ↔ uid ∈ dom (participants_names s).
Proof.
  destruct (run_ops_inv ops _ init_inv) as (bs & Hbs & [Hnd Hlen Hnm]).
  exists bs. split; [done|]. simpl. split_and!; [done..|].
  intros uid. by rewrite elem_of_dom.
Qed.


(** ** [_add_user] *)

(** C5. On a roster that satisfies its invariants, [_add_user] returns
    [False] and changes nothing when the id is already in the order list or
    the order list is at capacity; otherwise it appends the id to the end of
    the order list, records the display name and returns [True].  A second
    call with the same id right after the first returns [False] and leaves
    the state as the first call left it. *)
Theorem add_user_spec (s : Cog) (uid : Z) (n : string) :
  roster_inv s →
  (uid ∈ participants_order s ∨ length (participants_order s) = max_participants →
     _add_user uid n s = (s, Ok false)) ∧
  (¬ (uid ∈ participants_order s ∨ length (participants_order s) = max_participants) →
     _add_user uid n s =
       (set_roster (participants_order s ++ [uid])
                   (<[uid := n]> (participants_names s)) s, Ok true)) ∧
  (∀ n', _add_user uid n' (_add_user uid n s).1 = ((_add_user uid n s).1, Ok false)).
Proof.
  intros [Hnd Hlen Hnm]. split_and!.
  - intros [Hin | Hfull]; unfold _add_user.
    + apply Hnm in Hin. by rewrite bool_decide_eq_true_2.
    + case_bool_decide; [done|]. rewrite bool_decide_eq_true_2; [done | lia].
  - intros Hno. unfold _add_user.
    rewrite bool_decide_eq_false_2 by (intros ?%Hnm; tauto).
    rewrite bool_decide_eq_false_2; [done | lia].
  - intros n'. unfold _add_user at 2 3.
    case_bool_decide as Hin; simpl.
    { unfold _add_user. by rewrite bool_decide_eq_true_2. }
    case_bool_decide as Hfull; simpl.
    { unfold _add_user. rewrite bool_decide_eq_false_2 by done.
      by rewrite bool_decide_eq_true_2. }
    unfold _add_user; simpl. rewrite bool_decide_eq_true_2; [done|].
    rewrite lookup_insert_eq. by eexists.
Qed.

(** ** [_remove_user] *)

(** C6. On a roster that satisfies its invariants, [_remove_user] returns
    [False] and changes nothing when the id is absent; otherwise it returns
    [True], the id is gone from the order list and from the name mapping,
    and the order list is the old one without that id: the remaining
    participants keep their relative order, and their names stay. *)
Theorem remove_user_spec (s : Cog) (uid : Z) :
  roster_inv s →
  (uid ∉ participants_order s → _remove_user uid s = (s, Ok false)) ∧
  (uid ∈ participants_order s →
     ∃ s', _remove_user uid s = (s', Ok true) ∧
       participants_order s' = filter (λ y, y ≠ uid) (participants_order s) ∧
       sublist (participants_order s') (participants_order s) ∧
       (uid ∉ participants_order s') ∧
       participants_names s' = delete uid (participants_names s) ∧
       participants_names s' !! uid = None ∧
       (∀ v, v ≠ uid → participants_names s' !! v = participants_names s !! v) ∧
       lineup_channel_id s' = lineup_channel_id s ∧
       lineup_message_id s' = lineup_message_id s ∧
       anchor_messages s' = anchor_messages s).
Proof.
  intros [Hnd Hlen Hnm]. split.
  - intros Hout. unfold _remove_user. rewrite bool_decide_eq_true_2; [done|].
    apply eq_None_not_Some. by rewrite <- Hnm.
  - intros Hin. unfold _remove_user.
    rewrite bool_decide_eq_false_2
      by (apply not_eq_None_Some; by apply Hnm).
    destruct (list_remove uid (participants_order s)) as [l'|] eqn:E.
    2:{ apply list_remove_None in E. done. }
    pose proof (list_remove_Some_nodup _ _ _ Hnd E) as ->.
    eexists. split; [done|]. simpl. split_and!; try done.
    + apply sublist_filter.
    + rewrite list_elem_of_filter. tauto.
    + apply lookup_delete_eq.
    + intros v Hv. by apply lookup_delete_ne.
Qed.

(** ** [_lineup_text] *)

Lemma lookup_names_ok (names : gmap Z string) (order : list Z) :
  (∀ uid, uid ∈ order → is_Some (names !! uid)) →
  ∃ ns, lookup_names names order = Ok ns ∧
        Forall2 (λ uid n, names !! uid = Some n) order ns.
Proof.
  induction order as [|uid order IH]; intros Hall; simpl.
  - exists []. by split.
  - destruct (Hall uid) as [n Hn]; [by left|]. rewrite Hn.
    destruct IH as (ns & -> & HF); [intros v Hv; apply Hall; by right|].
    exists (n :: ns). split; [done|]. by constructor.
Qed.


Lemma numbered_from_lookup (k i : nat) (ns : list string) (n : string) :
  ns !! i = Some n → numbered_from k ns !! i = Some (pretty (k + i) +:+ ". " +:+ n).
Proof.
  revert k i. induction ns as [|m ns IH]; intros k [|i]; simpl; try done.
  - intros [= ->]. by rewrite Nat.add_0_r.
  - intros Hi. rewrite (IH (S k) i Hi). do 3 f_equal. lia.
Qed.

Lemma ready_header_annotated (mentions rest : string) :
  ready_annotated (ready_header mentions +:+ rest) = true.
Proof. reflexivity. Qed.

Lemma plain_header_not_annotated (rest : string) :
  ready_annotated (plain_header +:+ rest) = false.
Proof. reflexivity. Qed.


(** ** The roster theorems at sample rosters *)

Lemma cog_three_inv : roster_inv cog_three.
Proof. apply roster_ok_inv. vm_compute. reflexivity. Qed.


Lemma add_user_spec_witness :
  roster_inv cog_three ∧
  _add_user 22 "bob2" cog_three = (cog_three, Ok false) ∧
  _add_user 44 "dan" cog_three =
    (set_roster [11; 22; 33; 44]%Z
                (<[44%Z := "dan"]> (participants_names cog_three)) cog_three, Ok true) ∧
  _add_user 44 "eve" (_add_user 44 "dan" cog_three).1
    = ((_add_user 44 "dan" cog_three).1, Ok false).
Proof.
  split; [exact cog_three_inv|]. split_and!.
  - destruct (add_user_spec cog_three 22 "bob2" cog_three_inv) as (H & _ & _).
    apply H. left. apply (bool_decide_unpack _). exact I.
  - destruct (add_user_spec cog_three 44 "dan" cog_three_inv) as (_ & H & _).
    apply H. intros [Hin | Hlen]; [|discriminate Hlen].
    revert Hin. apply (bool_decide_unpack _). exact I.
  - destruct (add_user_spec cog_three 44 "dan" cog_three_inv) as (_ & _ & H).
    apply H.
Defined.

Lemma remove_user_spec_witness :
  roster_inv cog_three ∧
  _remove_user 44 cog_three = (cog_three, Ok false) ∧
  ∃ s', _remove_user 22 cog_three = (s', Ok true) ∧
        participants_order s' = [11; 33]%Z ∧
        participants_names s' !! 22%Z = None.
Proof.
  split; [exact cog_three_inv|]. split.
  - destruct (remove_user_spec cog_three 44 cog_three_inv) as (H & _).
    apply H. apply (bool_decide_unpack _). exact I.
  - destruct (remove_user_spec cog_three 22 cog_three_inv) as (_ & H).
    destruct H as (s' & Hs' & Ho & _ & _ & _ & Hn & _).
    { apply (bool_decide_unpack _). exact I. }
    exists s'. split_and!; [exact Hs' | exact Ho | exact Hn].
Defined.


Example lineup_text_full :
  _lineup_text cog_full
  = Ok ("📋 **Current Lineup (READY)** — <@1> <@2> <@3> <@4> <@5>" +:+ nl +:+
        "1. a" +:+ nl +:+ "2. b" +:+ nl +:+ "3. c" +:+ nl +:+ "4. d" +:+ nl +:+ "5. e").
Proof. vm_compute. reflexivity. Qed.

(** * Properties of the listeners *)

Ltac unfold_M :=
  unfold mbind, M_bind, mret, M_ret, bind, ret, try_except, the_bot_user_id, get_cog,
    modify, lift, lift_outcome, print in *.

Lemma is_anchor_false (s : Cog) (c m : Z) :
  (c, m) ∉ anchor_messages s → _is_anchor s c m = false.
Proof. intros H. unfold _is_anchor. by apply bool_decide_eq_false_2. Qed.

(** C2. A reaction-added or reaction-removed event, rich or raw, on a
    (channel, message) pair that is not in [anchor_messages] when the event
    is handled changes nothing: the roster, like every other attribute, is
    as before, no platform call is made and the listener returns.  This holds
    whoever reacted and whatever the emoji. *)
Theorem non_anchor_reaction_ignored (P : Platform) (w : World) :
  (∀ (reaction : Reaction) (user : UserObj),
     (channel_id (message_channel (reaction_message reaction)),
      message_id (reaction_message reaction)) ∉ anchor_messages (cog w) →
     on_reaction_add reaction user P w = (w, Ok tt) ∧
     on_reaction_remove reaction user P w = (w, Ok tt)) ∧
  (∀ payload : RawReactionActionEvent,
     (payload_channel_id payload, payload_message_id payload) ∉ anchor_messages (cog w) →
     on_raw_reaction_add payload P w = (w, Ok tt) ∧
     on_raw_reaction_remove payload P w = (w, Ok tt)).
Proof.
  split.
  - intros reaction user Hna%is_anchor_false.
    unfold on_reaction_add, on_reaction_remove. unfold_M. rewrite Hna. simpl.
    split; case_bool_decide; try done; by destruct (negb _).
  - intros payload Hna%is_anchor_false.
    unfold on_raw_reaction_add, on_raw_reaction_remove. unfold_M. rewrite Hna. simpl.
    split; case_bool_decide; try done; by destruct (negb _).
Qed.

Ltac unfold_calls :=
  unfold bot_get_channel, bot_get_guild, guild_get_member, channel_fetch_message,
    channel_send, message_edit, message_add_reaction, message_remove_reaction,
    response_defer, interaction_edit_original_response, lookup_call, request, log in *.

Lemma non_anchor_reaction_ignored_witness :
  ((10, 20)%Z ∉ anchor_messages (cog world_three)) ∧
  on_reaction_add check_reaction (Member 44 "dan" "Dan") platform_ok world_three
    = (world_three, Ok tt) ∧
  on_reaction_remove check_reaction (Member 22 "bob" "Bob") platform_ok world_three
    = (world_three, Ok tt) ∧
  on_raw_reaction_add (check_payload 44) platform_ok world_three = (world_three, Ok tt) ∧
  on_raw_reaction_remove (check_payload 22) platform_ok world_three = (world_three, Ok tt).
Proof.
  assert (Hna : (10, 20)%Z ∉ anchor_messages (cog world_three)).
  { apply (bool_decide_unpack _). exact I. }
  destruct (non_anchor_reaction_ignored platform_ok world_three) as [Hrich Hraw].
  split; [exact Hna|]. split_and!.
  - apply (Hrich check_reaction (Member 44 "dan" "Dan") Hna).
  - apply (Hrich check_reaction (Member 22 "bob" "Bob") Hna).
  - apply (Hraw (check_payload 44) Hna).
  - apply (Hraw (check_payload 22) Hna).
Defined.

(** ** A raw event whose channel is not in the cache *)

(** C9. If, from the moment a raw event is handled, the channel lookup for
    its channel id yields nothing, then a raw reaction-added event and a raw
    reaction-removed event, also ones that pass the bot, emoji and anchor
    guards, leave the roster and every other attribute as they were, and
    make no display update: the listener returns after cache lookups only
    (no send, edit or fetch). *)
Theorem raw_reaction_unknown_channel (P : Platform) (w : World)
    (payload : RawReactionActionEvent) :
  (∀ t', get_channel P (trace w ++ t') (payload_channel_id payload) = None) →
  (∃ t', on_raw_reaction_add payload P w = (mkWorld (cog w) (trace w ++ t'), Ok tt) ∧
         Forall (λ ev, is_lookup ev = true) t') ∧
  (∃ t', on_raw_reaction_remove payload P w = (mkWorld (cog w) (trace w ++ t'), Ok tt) ∧
         Forall (λ ev, is_lookup ev = true) t').
Proof.
  intros Hch. destruct w as [s t]. cbn [trace] in Hch.
  assert (H0 : get_channel P t (payload_channel_id payload) = None).
  { by rewrite <- (app_nil_r t). }
  assert (H1 : ∀ a, get_channel P (t ++ [a]) (payload_channel_id payload) = None) by done.
  assert (H2 : ∀ a b, get_channel P ((t ++ [a]) ++ [b]) (payload_channel_id payload) = None).
  { intros a b. by rewrite <- app_assoc. }
  clear Hch. split.
  - unfold on_raw_reaction_add. unfold_M. unfold_calls. simpl.
    repeat (case_match; simplify_eq/=); rewrite ?H0, ?H1, ?H2 in *; simplify_eq.
    all: try (exists []; split; [by rewrite app_nil_r | by constructor]).
    all: rewrite <- ?app_assoc; eexists; split; [reflexivity | by repeat constructor].
  - unfold on_raw_reaction_remove. unfold_M. unfold_calls. simpl.
    repeat (case_match; simplify_eq/=); rewrite ?H0, ?H1, ?H2 in *; simplify_eq.
    all: try (exists []; split; [by rewrite app_nil_r | by constructor]).
    all: rewrite <- ?app_assoc; eexists; split; [reflexivity | by repeat constructor].
Qed.

Lemma raw_reaction_unknown_channel_witness :
  (∀ t', get_channel platform_down (trace world_anchored ++ t')
                     (payload_channel_id (check_payload 44)) = None) ∧
  (∃ t', on_raw_reaction_add (check_payload 44) platform_down world_anchored
           = (mkWorld (cog world_anchored) (trace world_anchored ++ t'), Ok tt) ∧
         Forall (λ ev, is_lookup ev = true) t') ∧
  (∃ t', on_raw_reaction_remove (check_payload 22) platform_down world_anchored
           = (mkWorld (cog world_anchored) (trace world_anchored ++ t'), Ok tt) ∧
         Forall (λ ev, is_lookup ev = true) t').
Proof.
  assert (H : ∀ t', get_channel platform_down (trace world_anchored ++ t') 10 = None)
    by reflexivity.
  split; [exact H|]. split.
  - apply (raw_reaction_unknown_channel platform_down world_anchored (check_payload 44) H).
  - apply (raw_reaction_unknown_channel platform_down world_anchored (check_payload 22) H).
Defined.

Example raw_add_unknown_channel_run :
  on_raw_reaction_add (check_payload 44) platform_down world_anchored
  = (mkWorld cog_anchored
       [(CGetGuild 1, RGuild (mkGuild 1)); (CGetMember (mkGuild 1) 44, RNone);
        (CGetChannel 10, RNone)], Ok tt).
Proof. vm_compute. reflexivity. Qed.

(** ** [on_message] when the reaction cannot be added *)

Lemma mentions_target_role_intro (message : Message) (role : Role) :
  role ∈ message_role_mentions message → role_id role ∈ target_role_ids →
  mentions_target_role message = true.
Proof.
  intros Hin Hid. unfold mentions_target_role. apply existsb_exists.
  exists role. split; [by apply list_elem_of_In | by apply bool_decide_eq_true].
Qed.

(** C10. When a message from someone other than the bot mentions a target
    role and adding the bot's reaction to it raises, [on_message] catches the
    exception and returns: the pair is not added to [anchor_messages], the
    author is not added to the roster, no attribute changes, and nothing
    else is asked of the platform (the failure is only printed). *)
Theorem on_message_reaction_failure (P : Platform) (w : World) (message : Message)
    (role : Role) (e : exn) :
  user_id (message_author message) ≠ bot_user_id P →
  role ∈ message_role_mentions message → role_id role ∈ target_role_ids →
  add_reaction P (trace w) message reaction_emoji = Raise e →
  ∃ w', on_message message P w = (w', Ok tt) ∧
        cog w' = cog w ∧
        trace w' = trace w ++ [(CAddReaction message reaction_emoji, RRaise e);
                               (CPrint (Some e), RDone)].
Proof.
  intros Hbot Hin Hid Hadd.
  pose proof (mentions_target_role_intro _ _ Hin Hid) as Hm.
  unfold on_message. unfold_M. unfold_calls.
  rewrite bool_decide_eq_false_2 by done. rewrite Hm, Hadd. simpl.
  eexists. split; [reflexivity|]. simpl. split; [done|].
  by rewrite <- app_assoc.
Qed.

Lemma on_message_reaction_failure_witness :
  user_id (message_author call_message) ≠ bot_user_id platform_down ∧
  mkRole 776328568036392972 ∈ message_role_mentions call_message ∧
  role_id (mkRole 776328568036392972) ∈ target_role_ids ∧
  add_reaction platform_down (trace world_three) call_message reaction_emoji
    = Raise (PlatformError 403) ∧
  ∃ w', on_message call_message platform_down world_three = (w', Ok tt) ∧
        cog w' = cog world_three ∧
        trace w' = trace world_three
                   ++ [(CAddReaction call_message reaction_emoji, RRaise (PlatformError 403));
                       (CPrint (Some (PlatformError 403)), RDone)].
Proof.
  assert (H1 : user_id (message_author call_message) ≠ bot_user_id platform_down)
    by (intros H; discriminate H).
  assert (H2 : mkRole 776328568036392972 ∈ message_role_mentions call_message)
    by (apply list_elem_of_here).
  assert (H3 : role_id (mkRole 776328568036392972) ∈ target_role_ids)
    by (apply (bool_decide_unpack _); exact I).
  split_and!; [exact H1 | exact H2 | exact H3 | reflexivity |].
  apply (on_message_reaction_failure platform_down world_three call_message _ _ H1 H2 H3).
  reflexivity.
Defined.

(** * The display sync *)

Lemma lineup_text_roster (o : list Z) (n : gmap Z string) c m a c' m' a' :
  _lineup_text (mkCog o n c m a) = _lineup_text (mkCog o n c' m' a').
Proof. reflexivity. Qed.

Lemma lineup_text_set_lineup (c m : option Z) (s : Cog) :
  _lineup_text (set_lineup c m s) = _lineup_text s.
Proof. by destruct s. Qed.

Lemma send_and_record_run (P : Platform) (s : Cog) (t : Trace) (channel : Channel)
    (text : string) :
  _lineup_text s = Ok text →
  (∃ msg, send_and_record channel P (mkWorld s t)
          = (mkWorld (set_lineup (Some (channel_id (message_channel msg)))
                                 (Some (message_id msg)) s)
                     (t ++ [(CSend channel text, RMessage msg)]), Ok tt)) ∨
  (∃ e, send_and_record channel P (mkWorld s t)
        = (mkWorld s (t ++ [(CSend channel text, RRaise e)]), Raise e)).
Proof.
  intros Ht. unfold send_and_record, lineup_text. unfold_M. unfold_calls. simpl.
  rewrite Ht. destruct (send P t channel text) as [msg|e]; simpl; eauto.
Qed.

Lemma ensure_lineup_message_run (P : Platform) (s : Cog) (t : Trace) (channel : Channel)
    (text : string) :
  _lineup_text s = Ok text →
  ∃ t' s' r, _ensure_lineup_message channel P (mkWorld s t) = (mkWorld s' (t ++ t'), r) ∧
             ensure_shape channel text s t' s' r.
Proof.
  intros Ht.
  assert (Hsend : ∀ pre, ensure_pre pre →
    ∃ t' s' r, send_and_record channel P (mkWorld s (t ++ pre)) = (mkWorld s' (t ++ t'), r) ∧
               ensure_shape channel text s t' s' r).
  { intros pre Hpre.
    destruct (send_and_record_run P s (t ++ pre) channel text Ht) as [[msg ->] | [e ->]];
      rewrite <- app_assoc; do 3 eexists; (split; [reflexivity|]); by constructor. }
  unfold _ensure_lineup_message. unfold mbind, M_bind, bind at 1. unfold get_cog at 1. simpl.
  destruct (truthy (lineup_channel_id s) && truthy (lineup_message_id s)) eqn:Hheld.
  2:{ unfold bind, ret. destruct (Hsend [] EP_none) as (t' & s' & r & Hrun & Hshape).
      rewrite app_nil_r in Hrun. eauto. }
  destruct (lineup_channel_id s) as [c|]; [|done].
  destruct (lineup_message_id s) as [m|]; [|by rewrite andb_false_r in Hheld].
  unfold_M. unfold_calls. simpl.
  destruct (get_channel P t c) as [ch|] eqn:Hch; simpl.
  2:{ apply (Hsend _ (EP_no_channel c)). }
  destruct (fetch_message P _ ch m) as [msg|e] eqn:Hfetch; simpl.
  - rewrite <- app_assoc. do 3 eexists. split; [reflexivity|]. constructor.
  - rewrite <- app_assoc. apply (Hsend _ (EP_gone c ch m e)).
Qed.

Lemma edit_or_recreate_run (P : Platform) (s : Cog) (t : Trace) (channel : Channel)
    (text : string) :
  _lineup_text s = Ok text →
  ∃ t' s' r, edit_or_recreate channel P (mkWorld s t) = (mkWorld s' (t ++ t'), r) ∧
             edit_shape channel text s t' s' r.
Proof.
  intros Ht.
  assert (Hsend : ∀ pre, recreate_pre text pre →
    ∃ t' s' r, send_and_record channel P (mkWorld s (t ++ pre)) = (mkWorld s' (t ++ t'), r) ∧
               edit_shape channel text s t' s' r).
  { intros pre Hpre.
    destruct (send_and_record_run P s (t ++ pre) channel text Ht) as [[msg ->] | [e ->]];
      rewrite <- app_assoc; do 3 eexists; (split; [reflexivity|]); by constructor. }
  assert (Hnil : ∃ t' s' r, (mkWorld s t, Ok tt) = (mkWorld s' (t ++ t'), r) ∧
                            edit_shape channel text s t' s' r).
  { exists [], s, (Ok tt). rewrite app_nil_r. split; [done | constructor]. }
  unfold edit_or_recreate, lineup_text. unfold_M. unfold_calls. simpl.
  destruct (lineup_channel_id s) as [c|]; [|done].
  destruct (negb (c =? 0)%Z) eqn:Hc; [|done]. cbn [trace cog].
  destruct (get_channel P t c) as [ch|] eqn:Hch; simpl.
  2:{ do 3 eexists. split; [reflexivity|]. constructor. }
  destruct (lineup_message_id s) as [m|].
  2:{ do 3 eexists. split; [reflexivity|]. constructor. }
  destruct (negb (m =? 0)%Z) eqn:Hm.
  2:{ do 3 eexists. split; [reflexivity|]. constructor. }
  destruct (fetch_message P _ ch m) as [msg|e] eqn:Hfetch; simpl.
  2:{ rewrite <- app_assoc. apply (Hsend _ (RP_gone text c ch m e)). }
  rewrite Ht. simpl.
  destruct (edit P _ msg text) as [[]|e] eqn:Hedit; simpl.
  - rewrite <- !app_assoc. do 3 eexists. split; [reflexivity|]. constructor.
  - rewrite <- !app_assoc. apply (Hsend _ (RP_edit_failed text c ch m msg e)).
Qed.

Lemma update_lineup_message_shape (P : Platform) (s : Cog) (t : Trace)
    (channel : Channel) (text : string) :
  _lineup_text s = Ok text →
  ∃ t' s' r, _update_lineup_message channel P (mkWorld s t) = (mkWorld s' (t ++ t'), r) ∧
             sync_shape channel text s t' s' r.
Proof.
  intros Ht. unfold _update_lineup_message. unfold mbind, M_bind, bind.
  destruct (ensure_lineup_message_run P s t channel text Ht) as (t1 & s1 & r1 & -> & H1).
  destruct r1 as [[]|e].
  - assert (Ht1 : _lineup_text s1 = Ok text).
    { inversion H1; subst; [done|]. by rewrite lineup_text_set_lineup. }
    destruct (edit_or_recreate_run P s1 (t ++ t1) channel text Ht1)
      as (t2 & s2 & r2 & -> & H2).
    rewrite <- app_assoc. do 3 eexists. split; [reflexivity|].
    by eapply SS_continue.
  - do 3 eexists. split; [reflexivity|]. by apply SS_raise.
Qed.

Ltac solve_sync_post :=
  split; simpl; try done; try lia;
  first [ by repeat (constructor; [simpl; intros; by eauto|])
        | by repeat (split; [intros; by eauto|])
        | by (intros ?; split; intros [= ?]; simplify_eq) ].

Lemma sync_shape_post (channel : Channel) (text : string) (s : Cog) (t' : Trace)
    (s' : Cog) (r : Outcome unit) :
  sync_shape channel text s t' s' r → sync_post channel text s t' s' r.
Proof.
  intros Hs. inversion Hs as [t1 s1 e H1 | t1 s1 t2 s2 r2 H1 H2]; subst.
  - inversion H1 as [| |pre e' Hpre]; subst. inversion Hpre; subst; solve_sync_post.
  - inversion H1 as [c ch m msg|pre msg Hpre|]; subst.
    + inversion H2 as [| | | |pre' msg' Hpre'|pre' e' Hpre']; subst;
        try (inversion Hpre'; subst); solve_sync_post.
    + inversion Hpre; subst;
        (inversion H2 as [| | | |pre' msg' Hpre'|pre' e' Hpre']; subst;
         try (inversion Hpre'; subst); solve_sync_post).
Qed.

Lemma update_lineup_message_post (P : Platform) (w : World) (channel : Channel)
    (text : string) :
  _lineup_text (cog w) = Ok text →
  ∃ t', trace (_update_lineup_message channel P w).1 = trace w ++ t' ∧
        sync_post channel text (cog w) t' (cog (_update_lineup_message channel P w).1)
                  (_update_lineup_message channel P w).2.
Proof.
  destruct w as [s t]. simpl. intros Ht.
  destruct (update_lineup_message_shape P s t channel text Ht) as (t' & s' & r & -> & Hs).
  exists t'. split; [done|]. by apply sync_shape_post.
Qed.

Example sync_creates_then_edits :
  _update_lineup_message (mkChannel 10) platform_ok world_init
  = (mkWorld (set_lineup (Some 10%Z) (Some 1000%Z) ReactionCog_init)
       [(CSend (mkChannel 10) empty_text, RMessage (mkMessage 1000 (mkChannel 10) bot_user [] []));
        (CGetChannel 10, RChannel (mkChannel 10));
        (CFetchMessage (mkChannel 10) 1000,
         RMessage (mkMessage 1000 (mkChannel 10) bot_user [] []));
        (CEdit (mkMessage 1000 (mkChannel 10) bot_user [] []) empty_text, RDone)],
     Ok tt).
Proof. vm_compute. reflexivity. Qed.




(** * The reset command *)

Lemma remove_matching_run (P : Platform) (s : Cog) (msg : Message) (es : list EmojiObj) :
  ∀ t, ∃ t',
    for_each es (λ e, if _emoji_matches e reaction_emoji
                      then try_except (message_remove_reaction msg e) (λ _, ret tt)
                      else ret tt) P (mkWorld s t)
    = (mkWorld s (t ++ t'), Ok tt) ∧
    removal_events msg es t'.
Proof.
  induction es as [|e es IH]; intros t.
  - exists []. rewrite app_nil_r. split; [done | constructor].
  - cbn [for_each]. unfold_M. unfold_calls. cbn [trace cog] in *.
    destruct (_emoji_matches e reaction_emoji) eqn:He; cbn [trace cog].
    + destruct (remove_reaction P t msg e) as [[]|x]; cbv beta iota.
      * destruct (IH (t ++ [(CRemoveReaction msg e, RDone)])) as (t' & -> & Hev).
        rewrite <- app_assoc. eexists. split; [reflexivity|]. apply RE_try; eauto.
      * destruct (IH (t ++ [(CRemoveReaction msg e, RRaise x)])) as (t' & -> & Hev).
        rewrite <- app_assoc. eexists. split; [reflexivity|]. apply RE_try; eauto.
    + destruct (IH t) as (t' & -> & Hev).
      exists t'. split; [done|]. by apply RE_skip.
Qed.

Lemma remove_bots_reaction_on_run (P : Platform) (s : Cog) (t : Trace) (c m : Z) :
  ∃ seg, _remove_bots_reaction_on c m P (mkWorld s t) = (mkWorld s (t ++ seg), Ok tt) ∧
         retraction_attempt (c, m) seg.
Proof.
  pose proof (remove_matching_run P s) as Hloop.
  unfold _remove_bots_reaction_on. unfold_M. unfold_calls. cbn [trace cog] in *.
  destruct (get_channel P t c) as [ch|]; cbn [trace cog].
  2:{ eexists. split; [reflexivity|]. apply (RA_no_channel (c, m)). }
  destruct (fetch_message P _ ch m) as [msg|e]; cbn [trace cog].
  - destruct (Hloop msg (message_reactions msg)
                ((t ++ [(CGetChannel c, RChannel ch)]) ++ [(CFetchMessage ch m, RMessage msg)]))
      as (t' & Hrun & Hev).
    rewrite Hrun. rewrite <- !app_assoc.
    eexists. split; [reflexivity|]. by apply (RA_fetched (c, m)).
  - rewrite <- app_assoc. eexists. split; [reflexivity|]. apply (RA_gone (c, m)).
Qed.

Lemma retract_all_run (P : Platform) (s : Cog) (anchors : list (Z * Z)) :
  ∀ t, ∃ segs,
    retract_all anchors P (mkWorld s t) = (mkWorld s (t ++ concat segs), Ok tt) ∧
    Forall2 retraction_attempt anchors segs.
Proof.
  unfold retract_all. induction anchors as [|[c m] anchors IH]; intros t.
  - exists []. simpl. rewrite app_nil_r. split; [done | constructor].
  - cbn [for_each]. unfold mbind, M_bind, bind at 1. cbn [fst snd].
    destruct (remove_bots_reaction_on_run P s t c m) as (seg & -> & Hseg).
    destruct (IH (t ++ seg)) as (segs & -> & Hsegs).
    exists (seg :: segs). simpl. rewrite <- app_assoc. split; [done|]. by constructor.
Qed.



Example clear_two_anchors_one_gone :
  elements (anchor_messages cog_two_anchors) = [(10, 21); (10, 20)]%Z ∧
  clear (mkInteraction (mkChannel 10)) platform_one_gone world_two_anchors
  = (mkWorld (set_lineup (Some 10%Z) (Some 1006%Z) ReactionCog_init)
       [(CDefer, RDone);
        (CGetChannel 10, RChannel (mkChannel 10));
        (CFetchMessage (mkChannel 10) 21,
         RMessage (mkMessage 21 (mkChannel 10) bot_user [] [thumbs_up; check_mark]));
        (CRemoveReaction (mkMessage 21 (mkChannel 10) bot_user [] [thumbs_up; check_mark])
                         check_mark, RDone);
        (CGetChannel 10, RChannel (mkChannel 10));
        (CFetchMessage (mkChannel 10) 20, RRaise (PlatformError 404));
        (CSend (mkChannel 10) empty_text,
         RMessage (mkMessage 1006 (mkChannel 10) bot_user [] []));
        (CGetChannel 10, RChannel (mkChannel 10));
        (CFetchMessage (mkChannel 10) 1006,
         RMessage (mkMessage 1006 (mkChannel 10) bot_user [] [thumbs_up; check_mark]));
        (CEdit (mkMessage 1006 (mkChannel 10) bot_user [] [thumbs_up; check_mark])
               empty_text, RDone);
        (CEditOriginalResponse cleared_text, RDone)],
     Ok tt).
Proof. split; vm_compute; reflexivity. Qed.

(** * The full-lineup notice *)

Lemma on_reaction_add_present_in_full_roster (P : Platform) (w : World)
    (reaction : Reaction) (user : UserObj) :
  user_id user ≠ bot_user_id P →
  _emoji_matches (reaction_emoji_obj reaction) reaction_emoji = true →
  _is_anchor (cog w) (channel_id (message_channel (reaction_message reaction)))
             (message_id (reaction_message reaction)) = true →
  is_Some (participants_names (cog w) !! user_id user) →
  max_participants ≤ length (participants_order (cog w)) →
  ∃ reply,
    on_reaction_add reaction user P w
    = (log (CSend (message_channel (reaction_message reaction)) full_notice) reply w, Ok tt).
Proof.
  intros Hbot Hemoji Hanchor Hin Hfull. destruct w as [s t].
  unfold on_reaction_add, _add_user. unfold_M. unfold_calls. cbn [trace cog] in *.
  rewrite bool_decide_eq_false_2 by done. rewrite Hemoji, Hanchor. cbn [negb].
  rewrite (bool_decide_eq_true_2 _ Hin). cbn [trace cog].
  rewrite (bool_decide_eq_true_2 _ Hfull). cbn [trace cog].
  destruct (send P t (message_channel (reaction_message reaction)) full_notice); eauto.
Qed.

(** C8 fails on the code. User 3 is already in the full roster and reacts with
    the configured emoji on an anchor: [_add_user] returns [False] at its
    first test (the id is present), and [on_reaction_add] still sends the
    "lineup full" notice, because it only looks at the length of the roster.
    The same happens to the fifth participant when both listeners handle the
    reaction: the raw one adds user 5 and the rich one then sends the notice
    to the user who has just joined. *)
Theorem full_notice_sent_to_present_user :
  (is_Some (participants_names cog_full !! 3%Z) ∧
   _add_user 3 "C" cog_full = (cog_full, Ok false) ∧
   on_reaction_add check_reaction (Member 3 "c" "C") platform_ok world_full
   = (mkWorld cog_full
        [(CSend (mkChannel 10) "⚠️ The lineup is already full (max 5).",
          RMessage (mkMessage 1000 (mkChannel 10) bot_user [] []))],
      Ok tt)) ∧
  (participants_order (cog world_four) = [1; 2; 3; 4]%Z ∧
   participants_order (cog world_after_raw_join) = [1; 2; 3; 4; 5]%Z ∧
   (on_reaction_add check_reaction (Member 5 "e" "E") platform_ok world_after_raw_join).2
   = Ok tt ∧
   new_events world_after_raw_join
     (on_reaction_add check_reaction (Member 5 "e" "E") platform_ok world_after_raw_join).1
   = [(CSend (mkChannel 10) "⚠️ The lineup is already full (max 5).",
       RMessage (mkMessage 1007 (mkChannel 10) bot_user [] []))]).
Proof.
  split; split_and!; try (vm_compute; reflexivity). by eexists.
Qed.

(** ** Where the notice can come from *)

Lemma roster_inv_lineup_text (s : Cog) :
  roster_inv s → ∃ text, _lineup_text s = Ok text.
Proof.
  intros [_ _ Hnm].
  destruct (lookup_names_ok (participants_names s) (participants_order s))
    as (ns & Hns & _); [intros uid; apply Hnm|].
  unfold _lineup_text. rewrite Hns. destruct (participants_order s); eauto.
Qed.

Lemma lineup_text_not_notice (s : Cog) (text : string) :
  _lineup_text s = Ok text → text ≠ full_notice.
Proof.
  unfold _lineup_text. intros Ht Heq.
  assert (Hhead : String.get 0 text = Some "240"%char).
  { destruct (participants_order s); [by simplify_eq|].
    destruct (lookup_names _ _); [|done]. simplify_eq.
    by case_bool_decide. }
  rewrite Heq in Hhead. discriminate Hhead.
Qed.

Lemma update_lineup_message_no_notice (P : Platform) (w : World) (channel : Channel) :
  roster_inv (cog w) →
  ∃ t', trace (_update_lineup_message channel P w).1 = trace w ++ t' ∧
        Forall (λ ev, ¬ is_full_notice ev) t'.
Proof.
  intros [text Ht]%roster_inv_lineup_text.
  destruct (update_lineup_message_post P w channel text Ht) as (t' & Htr & [_ _ _ Hs _ _ _ _ _ _]).
  exists t'. split; [done|]. eapply Forall_impl; [exact Hs|].
  intros [c r] Hsend [ch Hch]. simpl in *. subst c.
  specialize (Hsend eq_refl). injection Hsend as _ Hx.
  by apply (lineup_text_not_notice _ _ Ht).
Qed.

(** The raw listener never sends the notice. *)
Lemma on_raw_reaction_add_no_notice (P : Platform) (w : World)
    (payload : RawReactionActionEvent) :
  roster_inv (cog w) →
  ∃ t', trace (on_raw_reaction_add payload P w).1 = trace w ++ t' ∧
        Forall (λ ev, ¬ is_full_notice ev) t'.
Proof.
  intros Hinv. destruct w as [s t]. cbn [trace cog] in *.
  assert (Hnil : ∃ t', t = t ++ t' ∧ Forall (λ ev, ¬ is_full_notice ev) t').
  { exists []. by rewrite app_nil_r. }
  unfold on_raw_reaction_add. unfold_M. unfold_calls. cbn [trace cog].
  case_bool_decide; [done|].
  destruct (negb (_emoji_matches _ _)); [done|].
  destruct (negb (_is_anchor _ _ _)); [done|]. clear Hnil.
  assert (Htail : ∀ display pre,
    Forall (λ ev, ¬ is_full_notice ev) pre →
    ∃ t', trace
      (let (w1, o1) :=
         match get_channel P (t ++ pre) (payload_channel_id payload) with
         | Some a1 =>
             (mkWorld s ((t ++ pre) ++ [(CGetChannel (payload_channel_id payload), RChannel a1)]),
              Ok (Some a1))
         | None =>
             (mkWorld s ((t ++ pre) ++ [(CGetChannel (payload_channel_id payload), RNone)]),
              Ok None)
         end in
       match o1 with
       | Ok a1 =>
           match a1 with
           | Some ch =>
               λ (P0 : Platform) (w : World),
                 let (w2, o2) :=
                   let '(s0, r) := _add_user (payload_user_id payload) display (cog w) in
                   (mkWorld s0 (trace w), r) in
                 match o2 with
                 | Ok a2 =>
                     (if a2 then _update_lineup_message ch
                      else λ (_ : Platform) (w0 : World), (w0, Ok tt)) P0 w2
                 | Raise e => (w2, Raise e)
                 end
           | None => λ (_ : Platform) (w : World), (w, Ok tt)
           end P w1
       | Raise e => (w1, Raise e)
       end).1 = t ++ t' ∧ Forall (λ ev, ¬ is_full_notice ev) t').
  { intros display pre Hpre.
    destruct (get_channel P (t ++ pre) (payload_channel_id payload)) as [ch|];
      cbn [trace cog].
    2:{ eexists. rewrite <- app_assoc. split; [reflexivity|].
        apply Forall_app. split; [done|]. apply Forall_singleton. by intros [? [=]]. }
    destruct (add_user_inv (payload_user_id payload) display s Hinv) as (b & Hb & Hinv').
    destruct (_add_user _ display s) as [s' r]. cbn [fst snd] in *. subst r.
    assert (Hpre' : Forall (λ ev, ¬ is_full_notice ev)
                      (pre ++ [(CGetChannel (payload_channel_id payload), RChannel ch)])).
    { apply Forall_app. split; [done|]. apply Forall_singleton. by intros [? [=]]. }
    destruct b.
    - destruct (update_lineup_message_no_notice P
                  (mkWorld s' ((t ++ pre) ++ [(CGetChannel (payload_channel_id payload),
                                               RChannel ch)])) ch Hinv')
        as (t' & -> & Ht').
      cbn [trace]. rewrite <- !app_assoc. eexists. split; [reflexivity|].
      rewrite app_assoc. by apply Forall_app.
    - cbn [trace]. rewrite <- app_assoc. by eexists. }
  destruct (payload_guild_id payload) as [g|].
  2:{ destruct (Htail ("user_" +:+ pretty (payload_user_id payload)) [] (Forall_nil_2 _))
        as (t' & Ht' & HF). rewrite app_nil_r in Ht'. eauto. }
  destruct (truthy (Some g)).
  2:{ destruct (Htail ("user_" +:+ pretty (payload_user_id payload)) [] (Forall_nil_2 _))
        as (t' & Ht' & HF). rewrite app_nil_r in Ht'. eauto. }
  cbn [trace cog]. destruct (get_guild P t g) as [gd|]; cbn [trace cog].
  2:{ destruct (Htail ("user_" +:+ pretty (payload_user_id payload)) [(CGetGuild g, RNone)])
        as (t' & Ht' & HF); [|by eauto].
      apply Forall_singleton. by intros [? [=]]. }
  destruct (get_member P _ gd (payload_user_id payload)) as [mem|]; cbn [trace cog].
  - destruct (Htail (user_display_name mem)
                [(CGetGuild g, RGuild gd); (CGetMember gd (payload_user_id payload), RMember mem)])
      as (t' & Ht' & HF).
    { repeat (apply Forall_cons; split; [by intros [? [=]]|]). apply Forall_nil_2. }
    rewrite <- (app_assoc t [_] [_]). exact (ex_intro _ t' (conj Ht' HF)).
  - destruct (Htail ("user_" +:+ pretty (payload_user_id payload))
                [(CGetGuild g, RGuild gd); (CGetMember gd (payload_user_id payload), RNone)])
      as (t' & Ht' & HF).
    { repeat (apply Forall_cons; split; [by intros [? [=]]|]). apply Forall_nil_2. }
    rewrite <- (app_assoc t [_] [_]). exact (ex_intro _ t' (conj Ht' HF)).
Qed.

(** On the rich path, once the guards are passed, the notice is sent exactly
    when the roster is full as the event is handled, whether the reacting
    user is in it or not. *)
Lemma on_reaction_add_notice_iff (P : Platform) (w : World) (reaction : Reaction)
    (user : UserObj) :
  user_id user ≠ bot_user_id P →
  _emoji_matches (reaction_emoji_obj reaction) reaction_emoji = true →
  _is_anchor (cog w) (channel_id (message_channel (reaction_message reaction)))
             (message_id (reaction_message reaction)) = true →
  roster_inv (cog w) →
  ∃ t', trace (on_reaction_add reaction user P w).1 = trace w ++ t' ∧
        (Exists is_full_notice t' ↔
         max_participants ≤ length (participants_order (cog w))).
Proof.
  intros Hbot Hemoji Hanchor Hinv. destruct w as [s t]. cbn [trace cog] in *.
  pose proof (add_user_inv (user_id user)
                (if is_member user then user_display_name user else user_name user)
                s Hinv) as (b & Hb & Hinv').
  unfold on_reaction_add. unfold_M. unfold_calls. cbn [trace cog].
  rewrite bool_decide_eq_false_2 by done. rewrite Hemoji, Hanchor. cbn [negb].
  revert Hb Hinv'. unfold _add_user.
  assert (Hsent : ∀ reply,
    Exists is_full_notice
      [(CSend (message_channel (reaction_message reaction)) full_notice, reply)]).
  { intros reply. apply Exists_cons_hd. by eexists. }
  destruct (decide (max_participants ≤ length (participants_order s))) as [Hfull|Hfull];
    [rewrite !(bool_decide_eq_true_2 _ Hfull) | rewrite !(bool_decide_eq_false_2 _ Hfull)];
    (destruct (decide (is_Some (participants_names s !! user_id user))) as [Hin|Hin];
     [rewrite !(bool_decide_eq_true_2 _ Hin) | rewrite !(bool_decide_eq_false_2 _ Hin)]);
    cbn [fst snd trace cog]; rewrite ?(bool_decide_eq_true_2 _ Hfull),
      ?(bool_decide_eq_false_2 _ Hfull); cbn [fst snd trace cog].
  - intros _ _.
    destruct (send P t (message_channel (reaction_message reaction)) full_notice);
      cbn [fst trace]; eexists; (split; [reflexivity|]); split; auto.
  - intros _ _.
    destruct (send P t (message_channel (reaction_message reaction)) full_notice);
      cbn [fst trace]; eexists; (split; [reflexivity|]); split; auto.
  - intros _ _. exists []. rewrite app_nil_r. split; [done|].
    split; [by intros ?%Exists_nil | done].
  - intros [= <-] Hinv'.
    destruct (update_lineup_message_no_notice P
                (mkWorld (set_roster (participants_order s ++ [user_id user])
                            (<[user_id user :=
                                 if is_member user then user_display_name user
                                 else user_name user]> (participants_names s)) s) t)
                (message_channel (reaction_message reaction)) Hinv') as (t' & Ht' & HF).
    exists t'. split; [exact Ht'|]. split; [|done].
    intros (ev & Hev & Hnotice)%Exists_exists.
    rewrite Forall_forall in HF. by destruct (HF ev Hev).
Qed.

(** * What a computation keeps *)

Section Preserves.
Context (I : Cog → Prop).

Lemma preserves_ret {A} (a : A) : preserves I (ret a).
Proof. intros P w H. exact H. Qed.

Lemma preserves_bind {A B} (m : M A) (k : A → M B) :
  preserves I m → (∀ a, preserves I (k a)) → preserves I (bind m k).
Proof.
  intros Hm Hk P w H. unfold bind. specialize (Hm P w H).
  destruct (m P w) as [w' [a|e]]; [by apply Hk | done].
Qed.

Lemma preserves_try_except {A} (m : M A) (h : exn → M A) :
  preserves I m → (∀ e, preserves I (h e)) → preserves I (try_except m h).
Proof.
  intros Hm Hh P w H. unfold try_except. specialize (Hm P w H).
  destruct (m P w) as [w' [a|e]]; [done | by apply Hh].
Qed.

Lemma preserves_lookup_call {A} c f (reply : A → Reply) :
  preserves I (lookup_call c f reply).
Proof. intros P w H. unfold lookup_call. by destruct (f P (trace w)). Qed.

Lemma preserves_request {A} c f (reply : A → Reply) :
  preserves I (request c f reply).
Proof. intros P w H. unfold request. by destruct (f P (trace w)). Qed.

Lemma preserves_print e : preserves I (print e).
Proof. intros P w H. exact H. Qed.

Lemma preserves_get_cog : preserves I get_cog.
Proof. intros P w H. exact H. Qed.

Lemma preserves_the_bot_user_id : preserves I the_bot_user_id.
Proof. intros P w H. exact H. Qed.

Lemma preserves_lift_outcome {A} (r : Outcome A) : preserves I (lift_outcome r).
Proof. intros P w H. exact H. Qed.

Lemma preserves_modify (f : Cog → Cog) :
  (∀ s, I s → I (f s)) → preserves I (modify f).
Proof. intros Hf P w H. by apply Hf. Qed.

Lemma preserves_lift {A} (f : Cog → Cog * Outcome A) :
  (∀ s, I s → I (f s).1) → preserves I (lift f).
Proof.
  intros Hf P w H. unfold lift. specialize (Hf (cog w) H).
  by destruct (f (cog w)).
Qed.

Lemma preserves_for_each {A} (l : list A) (body : A → M unit) :
  (∀ a, preserves I (body a)) → preserves I (for_each l body).
Proof.
  intros Hb. induction l as [|a l IH]; [apply preserves_ret|].
  cbn [for_each]. unfold mbind, M_bind. by apply preserves_bind.
Qed.
End Preserves.

(** One step of a proof that a computation keeps a property: split a
    sequence, a [try], a branch. *)
Ltac preserves_step :=
  unfold mbind, M_bind;
  lazymatch goal with
  | |- preserves _ (bind _ _) => apply preserves_bind; [|intros ?]
  | |- preserves _ (try_except _ _) => apply preserves_try_except; [|intros ?]
  | |- preserves _ (ret _) => apply preserves_ret
  | |- preserves _ (print _) => apply preserves_print
  | |- preserves _ get_cog => apply preserves_get_cog
  | |- preserves _ the_bot_user_id => apply preserves_the_bot_user_id
  | |- preserves _ (lift_outcome _) => apply preserves_lift_outcome
  | |- preserves _ (lookup_call _ _ _) => apply preserves_lookup_call
  | |- preserves _ (request _ _ _) => apply preserves_request
  | |- preserves _ (for_each _ _) => apply preserves_for_each; intros ?
  | |- preserves _ (if ?b then _ else _) => destruct b
  | |- preserves _ (match ?x with _ => _ end) => destruct x
  end.

Ltac unfold_platform_calls :=
  unfold bot_get_channel, bot_get_guild, guild_get_member, channel_fetch_message,
    channel_send, message_edit, message_add_reaction, message_remove_reaction,
    response_defer, interaction_edit_original_response, lineup_text.

Section PreservesHelpers.
Context (I : Cog → Prop).

Lemma preserves_send_and_record channel :
  lineup_blind I → preserves I (send_and_record channel).
Proof.
  intros Hblind. unfold send_and_record. unfold_platform_calls.
  repeat preserves_step. apply preserves_modify. intros s. apply Hblind.
Qed.

Lemma preserves_ensure_lineup_message channel :
  lineup_blind I → preserves I (_ensure_lineup_message channel).
Proof.
  intros Hblind. unfold _ensure_lineup_message. unfold_platform_calls.
  repeat first [apply (preserves_send_and_record _ Hblind) | preserves_step].
Qed.

Lemma preserves_edit_or_recreate channel :
  lineup_blind I → preserves I (edit_or_recreate channel).
Proof.
  intros Hblind. unfold edit_or_recreate. unfold_platform_calls.
  repeat first [apply (preserves_send_and_record _ Hblind) | preserves_step].
Qed.

Lemma preserves_update_lineup_message channel :
  lineup_blind I → preserves I (_update_lineup_message channel).
Proof.
  intros Hblind. unfold _update_lineup_message. preserves_step.
  - by apply preserves_ensure_lineup_message.
  - by apply preserves_edit_or_recreate.
Qed.

Lemma preserves_remove_bots_reaction_on c m :
  preserves I (_remove_bots_reaction_on c m).
Proof.
  unfold _remove_bots_reaction_on. unfold_platform_calls. repeat preserves_step.
Qed.

Lemma preserves_retract_all anchors : preserves I (retract_all anchors).
Proof.
  unfold retract_all. apply preserves_for_each. intros a.
  apply preserves_remove_bots_reaction_on.
Qed.
End PreservesHelpers.

(** * The roster under every event *)

Lemma roster_inv_ext (s s' : Cog) :
  participants_order s' = participants_order s →
  participants_names s' = participants_names s →
  roster_inv s → roster_inv s'.
Proof.
  intros Ho Hn [Hnd Hlen Hnm]. split.
  - by rewrite Ho.
  - by rewrite Ho.
  - intros uid. by rewrite Ho, Hn.
Qed.

Lemma roster_inv_blind : lineup_blind roster_inv.
Proof. intros c m s. by apply roster_inv_ext. Qed.

Lemma roster_inv_set_anchors (a : gset (Z * Z)) (s : Cog) :
  roster_inv s → roster_inv (set_anchors a s).
Proof. by apply roster_inv_ext. Qed.

Lemma roster_inv_cleared (s : Cog) : roster_inv (set_roster [] ∅ s).
Proof.
  split; simpl.
  - apply NoDup_nil_2.
  - unfold max_participants. lia.
  - intros uid. rewrite lookup_empty. split; [by intros ?%elem_of_nil | by intros [? ?]].
Qed.

Lemma add_user_keeps_inv uid n s : roster_inv s → roster_inv (_add_user uid n s).1.
Proof. intros H. by destruct (add_user_inv uid n s H) as (b & _ & ?). Qed.

Lemma remove_user_keeps_inv uid s : roster_inv s → roster_inv (_remove_user uid s).1.
Proof. intros H. by destruct (remove_user_inv uid s H) as (b & _ & ?). Qed.

Ltac preserves_roster_inv :=
  repeat first
    [ apply (preserves_update_lineup_message _ _ roster_inv_blind)
    | apply preserves_retract_all
    | apply preserves_lift; intros ?; first [apply add_user_keeps_inv | apply remove_user_keeps_inv]
    | apply preserves_modify; intros ? ?;
        first [apply roster_inv_cleared | by apply roster_inv_set_anchors]
    | preserves_step ].

Lemma handle_preserves_roster_inv (ev : Event) : preserves roster_inv (handle ev).
Proof.
  destruct ev; cbn [handle].
  - unfold on_ready. preserves_roster_inv.
  - unfold on_message. unfold_platform_calls. preserves_roster_inv.
  - unfold on_reaction_add. unfold_platform_calls. preserves_roster_inv.
  - unfold on_raw_reaction_add. unfold_platform_calls. preserves_roster_inv.
  - unfold on_reaction_remove. unfold_platform_calls. preserves_roster_inv.
  - unfold on_raw_reaction_remove. unfold_platform_calls. preserves_roster_inv.
  - unfold clear. unfold_platform_calls. preserves_roster_inv.
Qed.

Lemma run_events_preserves_roster_inv (evs : list Event) (P : Platform) :
  ∀ w, roster_inv (cog w) → roster_inv (cog (run_events evs P w)).
Proof.
  induction evs as [|ev evs IH]; intros w Hw; [done|].
  cbn [run_events]. apply IH. by apply handle_preserves_roster_inv.
Qed.

(** X1. Whatever events arrive after [__init__], in whatever order, and
    whatever the platform answers (also when listeners raise), the roster
    never holds a user id twice, never holds more than 5 ids, and its order
    list and name dict always hold the same ids. *)
Theorem roster_invariant_all_events (evs : list Event) (P : Platform) :
  let s := cog (run_events evs P world_init) in
  NoDup (participants_order s) ∧
  length (participants_order s) ≤ 5 ∧
  ∀ uid : Z, uid ∈ participants_order s ↔ uid ∈ dom (participants_names s).
Proof.
  destruct (run_events_preserves_roster_inv evs P world_init init_inv) as [Hnd Hlen Hnm].
  simpl. split_and!; [done..|]. intros uid. by rewrite elem_of_dom.
Qed.

(** * What the helpers leave alone *)

Lemma update_lineup_message_frame (P : Platform) (w : World) (channel : Channel) :
  participants_order (cog (_update_lineup_message channel P w).1) = participants_order (cog w) ∧
  participants_names (cog (_update_lineup_message channel P w).1) = participants_names (cog w) ∧
  anchor_messages (cog (_update_lineup_message channel P w).1) = anchor_messages (cog w).
Proof.
  apply (preserves_update_lineup_message
           (λ s, participants_order s = participants_order (cog w) ∧
                 participants_names s = participants_names (cog w) ∧
                 anchor_messages s = anchor_messages (cog w))); [|done].
  intros c m s. by destruct s.
Qed.

Lemma add_user_anchors uid n s :
  anchor_messages (_add_user uid n s).1 = anchor_messages s.
Proof. unfold _add_user. by repeat case_bool_decide. Qed.

Lemma remove_user_anchors uid s :
  anchor_messages (_remove_user uid s).1 = anchor_messages s.
Proof.
  unfold _remove_user. case_bool_decide; [done|].
  by destruct (list_remove uid (participants_order s)).
Qed.

Lemma anchors_blind (A : gset (Z * Z)) : lineup_blind (λ s, anchor_messages s = A).
Proof. intros c m s H. exact H. Qed.

Ltac preserves_anchors :=
  repeat first
    [ apply (preserves_update_lineup_message _ _ (anchors_blind _))
    | apply preserves_lift; intros ? ?;
        first [by rewrite add_user_anchors | by rewrite remove_user_anchors]
    | preserves_step ].

(** X2. The four reaction listeners never change the set of anchors,
    whatever the event and whatever the platform answers: anchors are only
    made by [on_message] and only forgotten by [on_ready] and [clear]. *)
Theorem reaction_listeners_keep_anchors (P : Platform) (w : World) (reaction : Reaction)
    (user : UserObj) (payload : RawReactionActionEvent) :
  anchor_messages (cog (on_reaction_add reaction user P w).1) = anchor_messages (cog w) ∧
  anchor_messages (cog (on_raw_reaction_add payload P w).1) = anchor_messages (cog w) ∧
  anchor_messages (cog (on_reaction_remove reaction user P w).1) = anchor_messages (cog w) ∧
  anchor_messages (cog (on_raw_reaction_remove payload P w).1) = anchor_messages (cog w).
Proof.
  split_and!.
  - enough (H : preserves (λ s, anchor_messages s = anchor_messages (cog w))
                        (on_reaction_add reaction user)) by exact (H P w eq_refl).
    unfold on_reaction_add. unfold_platform_calls. preserves_anchors.
  - enough (H : preserves (λ s, anchor_messages s = anchor_messages (cog w))
                        (on_raw_reaction_add payload)) by exact (H P w eq_refl).
    unfold on_raw_reaction_add. unfold_platform_calls. preserves_anchors.
  - enough (H : preserves (λ s, anchor_messages s = anchor_messages (cog w))
                        (on_reaction_remove reaction user)) by exact (H P w eq_refl).
    unfold on_reaction_remove. unfold_platform_calls. preserves_anchors.
  - enough (H : preserves (λ s, anchor_messages s = anchor_messages (cog w))
                        (on_raw_reaction_remove payload)) by exact (H P w eq_refl).
    unfold on_raw_reaction_remove. unfold_platform_calls. preserves_anchors.
Qed.

(** * [on_message] *)

(** X3. [on_message] never raises: whatever the message and whatever the
    platform answers (a reaction that cannot be added, a lineup message that
    cannot be sent), the listener returns. *)
Theorem on_message_never_raises (P : Platform) (w : World) (message : Message) :
  (on_message message P w).2 = Ok tt.
Proof.
  unfold on_message. unfold_M.
  case_bool_decide; [done|]. destruct (mentions_target_role message); [|done].
  match goal with |- (let (w', o) := ?m in _).2 = _ => destruct m as [w' [[]|e]] end; done.
Qed.

(** X4. A message from the bot itself, or one that mentions none of the
    target roles, changes nothing and asks nothing of the platform. *)
Theorem on_message_ignored (P : Platform) (w : World) (message : Message) :
  user_id (message_author message) = bot_user_id P ∨
  (∀ role, role ∈ message_role_mentions message → role_id role ∉ target_role_ids) →
  on_message message P w = (w, Ok tt).
Proof.
  intros Hguard. unfold on_message. unfold_M.
  case_bool_decide as Hbot; [done|]. destruct Hguard as [?|Hnone]; [done|].
  assert (mentions_target_role message = false) as ->; [|done].
  unfold mentions_target_role. apply not_true_is_false. intros Hex%existsb_exists.
  destruct Hex as (role & Hin%list_elem_of_In & Hid%bool_decide_eq_true).
  by apply (Hnone role).
Qed.

(** X5. When a message from someone else mentions a target role and the
    bot's reaction is added, the message is an anchor afterwards and the
    roster is what [_add_user] makes of it for the author (joined under the
    display name, or unchanged when already in or when the roster is full),
    also when the display sync that follows fails. *)
Theorem on_message_promotes (P : Platform) (w : World) (message : Message) (role : Role) :
  user_id (message_author message) ≠ bot_user_id P →
  role ∈ message_role_mentions message → role_id role ∈ target_role_ids →
  add_reaction P (trace w) message reaction_emoji = Ok tt →
  let w' := (on_message message P w).1 in
  let joined := (_add_user (user_id (message_author message))
                           (user_display_name (message_author message)) (cog w)).1 in
  anchor_messages (cog w')
    = {[ (channel_id (message_channel message), message_id message) ]}
      ∪ anchor_messages (cog w) ∧
  _is_anchor (cog w') (channel_id (message_channel message)) (message_id message) = true ∧
  participants_order (cog w') = participants_order joined ∧
  participants_names (cog w') = participants_names joined.
Proof.
  intros Hbot Hin Hid Hadd.
  pose proof (mentions_target_role_intro _ _ Hin Hid) as Hm.
  destruct w as [s t]. cbn [trace cog] in *. cbv zeta.
  unfold on_message. unfold_M. unfold_calls. cbn [trace cog].
  rewrite bool_decide_eq_false_2 by done. rewrite Hm. cbn [trace cog].
  rewrite Hadd. cbn [trace cog].
  pose proof (add_user_anchors (user_id (message_author message))
                (user_display_name (message_author message))
                (set_anchors ({[(channel_id (message_channel message), message_id message)]}
                              ∪ anchor_messages s) s)) as Hanch.
  assert (Hjoin : ∀ a,
    participants_order (_add_user (user_id (message_author message))
                          (user_display_name (message_author message)) (set_anchors a s)).1
    = participants_order (_add_user (user_id (message_author message))
                          (user_display_name (message_author message)) s).1 ∧
    participants_names (_add_user (user_id (message_author message))
                          (user_display_name (message_author message)) (set_anchors a s)).1
    = participants_names (_add_user (user_id (message_author message))
                          (user_display_name (message_author message)) s).1).
  { intros a. unfold _add_user. cbn [participants_names participants_order set_anchors].
    by repeat case_bool_decide. }
  specialize (Hjoin ({[(channel_id (message_channel message), message_id message)]}
                     ∪ anchor_messages s)).
  destruct (_add_user _ _ (set_anchors _ s)) as [s1 [added|e]] eqn:Hadded; cbn [fst] in *.
  2:{ exfalso. revert Hadded. unfold _add_user. by repeat case_bool_decide. }
  cbn [set_anchors anchor_messages] in Hanch.
  assert (Hgoal : ∀ w2 : World,
    participants_order (cog w2) = participants_order s1 →
    participants_names (cog w2) = participants_names s1 →
    anchor_messages (cog w2) = anchor_messages s1 →
    anchor_messages (cog w2)
      = {[ (channel_id (message_channel message), message_id message) ]} ∪ anchor_messages s ∧
    _is_anchor (cog w2) (channel_id (message_channel message)) (message_id message) = true ∧
    participants_order (cog w2)
      = participants_order (_add_user (user_id (message_author message))
                              (user_display_name (message_author message)) s).1 ∧
    participants_names (cog w2)
      = participants_names (_add_user (user_id (message_author message))
                              (user_display_name (message_author message)) s).1).
  { intros w2 Ho Hn Ha. destruct Hjoin as [Hjo Hjn].
    split_and!; [congruence | | congruence | congruence].
    unfold _is_anchor. apply bool_decide_eq_true. rewrite Ha, Hanch.
    apply elem_of_union_l. by apply elem_of_singleton. }
  destruct added.
  - match goal with |- context [_update_lineup_message ?ch P ?w1] =>
      destruct (update_lineup_message_frame P w1 ch) as (Ho & Hn & Ha);
      destruct (_update_lineup_message ch P w1) as [w2 [[]|e]]
    end; cbn [fst cog] in *; by apply Hgoal.
  - by apply Hgoal.
Qed.

(** * Joining and leaving by reaction *)

Lemma add_user_joins uid n s :
  participants_names s !! uid = None →
  length (participants_order s) < max_participants →
  _add_user uid n s
  = (set_roster (participants_order s ++ [uid]) (<[uid := n]> (participants_names s)) s,
     Ok true).
Proof.
  intros Hout Hroom. unfold _add_user.
  rewrite bool_decide_eq_false_2 by (rewrite Hout; by intros [? ?]).
  rewrite bool_decide_eq_false_2 by lia. done.
Qed.

(** X6. A user who is not in the roster and reacts with the configured
    emoji on an anchor while there is room joins at the end of the roster,
    under the display name for a [Member] and the user name for a plain
    [User]; this holds also when the display sync that follows fails, and
    then [on_reaction_add] raises with the user already added. *)
Theorem on_reaction_add_joins (P : Platform) (w : World) (reaction : Reaction)
    (user : UserObj) :
  user_id user ≠ bot_user_id P →
  _emoji_matches (reaction_emoji_obj reaction) reaction_emoji = true →
  (channel_id (message_channel (reaction_message reaction)),
   message_id (reaction_message reaction)) ∈ anchor_messages (cog w) →
  participants_names (cog w) !! user_id user = None →
  length (participants_order (cog w)) < max_participants →
  let w' := (on_reaction_add reaction user P w).1 in
  participants_order (cog w') = participants_order (cog w) ++ [user_id user] ∧
  participants_names (cog w')
    = <[user_id user := match user with
                        | Member _ _ display_name => display_name
                        | User _ name _ => name
                        end]> (participants_names (cog w)).
Proof.
  intros Hbot Hemoji Hanchor Hout Hroom. destruct w as [s t]. cbn [trace cog] in *. cbv zeta.
  unfold on_reaction_add. unfold_M. cbn [trace cog].
  rewrite bool_decide_eq_false_2 by done. rewrite Hemoji. cbn [negb].
  unfold _is_anchor. rewrite (bool_decide_eq_true_2 _ Hanchor). cbn [negb].
  rewrite (add_user_joins _ _ _ Hout Hroom). cbn [trace cog]. cbv beta iota.
  lazymatch goal with |- context [_update_lineup_message ?ch P ?w1] =>
    destruct (update_lineup_message_frame P w1 ch) as (Ho & Hn & _)
  end.
  cbn [cog participants_order participants_names set_roster] in Ho, Hn.
  rewrite Ho, Hn. by destruct user.
Qed.

(** X7. A user in the roster who takes the configured reaction off an
    anchor leaves the roster: the id is dropped from the order list, the
    others keep their order, and the name is forgotten, also when the
    display sync that follows fails.  A user who is not in the roster
    changes nothing, and nothing is asked of the platform. *)
Theorem on_reaction_remove_leaves (P : Platform) (w : World) (reaction : Reaction)
    (user : UserObj) :
  roster_inv (cog w) →
  user_id user ≠ bot_user_id P →
  _emoji_matches (reaction_emoji_obj reaction) reaction_emoji = true →
  (channel_id (message_channel (reaction_message reaction)),
   message_id (reaction_message reaction)) ∈ anchor_messages (cog w) →
  (user_id user ∈ participants_order (cog w) →
     let w' := (on_reaction_remove reaction user P w).1 in
     participants_order (cog w')
       = filter (λ y, y ≠ user_id user) (participants_order (cog w)) ∧
     participants_names (cog w') = delete (user_id user) (participants_names (cog w))) ∧
  (user_id user ∉ participants_order (cog w) →
     on_reaction_remove reaction user P w = (w, Ok tt)).
Proof.
  intros Hinv Hbot Hemoji Hanchor. destruct w as [s t]. cbn [trace cog] in *.
  unfold on_reaction_remove. unfold_M. cbn [trace cog].
  rewrite bool_decide_eq_false_2 by done. rewrite Hemoji. cbn [negb].
  unfold _is_anchor. rewrite (bool_decide_eq_true_2 _ Hanchor). cbn [negb].
  destruct Hinv as [Hnd Hlen Hnm]. unfold _remove_user. split.
  - intros Hin. cbv zeta.
    rewrite bool_decide_eq_false_2 by (apply not_eq_None_Some; by apply Hnm).
    cbn [trace cog].
    destruct (list_remove (user_id user) (participants_order s)) as [l'|] eqn:E.
    2:{ by apply list_remove_None in E. }
    pose proof (list_remove_Some_nodup _ _ _ Hnd E) as ->. cbn [trace cog]. cbv beta iota.
    lazymatch goal with |- context [_update_lineup_message ?ch P ?w1] =>
      destruct (update_lineup_message_frame P w1 ch) as (Ho & Hn & _)
    end.
    cbn [cog participants_order participants_names set_roster] in Ho, Hn.
    by rewrite Ho, Hn.
  - intros Hout. rewrite bool_decide_eq_true_2; [done|].
    apply eq_None_not_Some. by rewrite <- Hnm.
Qed.



Lemma add_user_present uid n s :
  is_Some (participants_names s !! uid) → _add_user uid n s = (s, Ok false).
Proof. intros Hin. unfold _add_user. by rewrite (bool_decide_eq_true_2 _ Hin). Qed.

Lemma remove_user_absent uid s :
  participants_names s !! uid = None → _remove_user uid s = (s, Ok false).
Proof. intros Hout. unfold _remove_user. by rewrite (bool_decide_eq_true_2 _ Hout). Qed.

Ltac lookups_only :=
  rewrite <- ?app_assoc; eexists; split; [reflexivity | by repeat constructor].

Ltac raw_noop_tail Hrw :=
  cbn [trace cog];
  lazymatch goal with |- context [get_channel ?P ?t ?c] =>
    destruct (get_channel P t c)
  end; cbn [trace cog]; rewrite ?Hrw; cbn [trace cog]; lookups_only.

(** X9. Handling a reaction twice is harmless to the roster.  When the
    user is already in the roster, the raw listener for a reaction added
    only makes cache lookups and changes no attribute, and so does the rich
    one unless the roster is full; when the user is not in the roster, the
    listeners for a reaction removed change nothing either. *)
Theorem repeated_delivery_is_noop (P : Platform) (w : World) :
  (∀ payload, is_Some (participants_names (cog w) !! payload_user_id payload) →
     ∃ t', on_raw_reaction_add payload P w = (mkWorld (cog w) (trace w ++ t'), Ok tt) ∧
           Forall (λ ev, is_lookup ev = true) t') ∧
  (∀ reaction user, is_Some (participants_names (cog w) !! user_id user) →
     length (participants_order (cog w)) < max_participants →
     on_reaction_add reaction user P w = (w, Ok tt)) ∧
  (∀ payload, participants_names (cog w) !! payload_user_id payload = None →
     ∃ t', on_raw_reaction_remove payload P w = (mkWorld (cog w) (trace w ++ t'), Ok tt) ∧
           Forall (λ ev, is_lookup ev = true) t') ∧
  (∀ reaction user, participants_names (cog w) !! user_id user = None →
     on_reaction_remove reaction user P w = (w, Ok tt)).
Proof.
  destruct w as [s t]. cbn [trace cog]. split_and!.
  - intros payload Hin.
    pose proof (λ n, add_user_present (payload_user_id payload) n s Hin) as Hrw.
    unfold on_raw_reaction_add. unfold_M. unfold_calls. cbn [trace cog].
    case_bool_decide; [exists []; by rewrite app_nil_r|].
    destruct (negb (_emoji_matches _ _)); [exists []; by rewrite app_nil_r|].
    destruct (negb (_is_anchor _ _ _)); [exists []; by rewrite app_nil_r|].
    destruct (payload_guild_id payload) as [g|]; [|raw_noop_tail Hrw].
    destruct (truthy (Some g)); [|raw_noop_tail Hrw].
    cbn [trace cog]. destruct (get_guild P t g) as [gd|]; cbn [trace cog];
      [|raw_noop_tail Hrw].
    destruct (get_member P _ gd (payload_user_id payload)); raw_noop_tail Hrw.
  - intros reaction user Hin Hroom.
    unfold on_reaction_add. unfold_M. cbn [trace cog].
    case_bool_decide; [done|]. destruct (negb (_emoji_matches _ _)); [done|].
    destruct (negb (_is_anchor _ _ _)); [done|]. cbn [trace cog].
    rewrite (add_user_present _ _ _ Hin). cbn [trace cog].
    by rewrite bool_decide_eq_false_2 by lia.
  - intros payload Hout.
    pose proof (remove_user_absent (payload_user_id payload) s Hout) as Hrw.
    unfold on_raw_reaction_remove. unfold_M. unfold_calls. cbn [trace cog].
    case_bool_decide; [exists []; by rewrite app_nil_r|].
    destruct (negb (_emoji_matches _ _)); [exists []; by rewrite app_nil_r|].
    destruct (negb (_is_anchor _ _ _)); [exists []; by rewrite app_nil_r|].
    raw_noop_tail Hrw.
  - intros reaction user Hout.
    unfold on_reaction_remove. unfold_M. cbn [trace cog].
    case_bool_decide; [done|]. destruct (negb (_emoji_matches _ _)); [done|].
    destruct (negb (_is_anchor _ _ _)); [done|]. cbn [trace cog].
    by rewrite (remove_user_absent _ _ Hout).
Qed.

Lemma add_user_full uid n s :
  max_participants ≤ length (participants_order s) → _add_user uid n s = (s, Ok false).
Proof.
  intros Hfull. unfold _add_user. case_bool_decide; [done|].
  by rewrite (bool_decide_eq_true_2 _ Hfull).
Qed.

(** X10. When the roster is full, a reaction by anyone but the bot with the
    configured emoji on an anchor changes no attribute: [on_reaction_add]
    makes one call, the sending of the notice to the channel of the message,
    and returns also when that send fails. *)
Theorem on_reaction_add_full_roster (P : Platform) (w : World) (reaction : Reaction)
    (user : UserObj) :
  user_id user ≠ bot_user_id P →
  _emoji_matches (reaction_emoji_obj reaction) reaction_emoji = true →
  (channel_id (message_channel (reaction_message reaction)),
   message_id (reaction_message reaction)) ∈ anchor_messages (cog w) →
  max_participants ≤ length (participants_order (cog w)) →
  on_reaction_add reaction user P w
  = (mkWorld (cog w)
       (trace w ++ [(CSend (message_channel (reaction_message reaction))
                           "⚠️ The lineup is already full (max 5).",
                     match send P (trace w) (message_channel (reaction_message reaction))
                                "⚠️ The lineup is already full (max 5)." with
                     | Ok msg => RMessage msg
                     | Raise e => RRaise e
                     end)]),
     Ok tt).
Proof.
  intros Hbot Hemoji Hanchor Hfull. destruct w as [s t]. cbn [trace cog] in *.
  unfold on_reaction_add. unfold_M. unfold_calls. cbn [trace cog].
  rewrite bool_decide_eq_false_2 by done. rewrite Hemoji. cbn [negb].
  unfold _is_anchor. rewrite (bool_decide_eq_true_2 _ Hanchor). cbn [negb].
  rewrite (add_user_full _ _ _ Hfull). cbn [trace cog].
  rewrite (bool_decide_eq_true_2 _ Hfull). cbn [trace cog].
  unfold full_notice.
  by destruct (send P t (message_channel (reaction_message reaction)) _).
Qed.

(** X11. A failure of the display sync is not caught by [on_reaction_add]:
    when no lineup message is recorded and the send of a new one fails, the
    listener raises that failure, and the user who reacted stays in the
    roster although no lineup message shows it. *)
Theorem on_reaction_add_sync_failure (P : Platform) (w : World) (reaction : Reaction)
    (user : UserObj) (e : exn) :
  roster_inv (cog w) →
  user_id user ≠ bot_user_id P →
  _emoji_matches (reaction_emoji_obj reaction) reaction_emoji = true →
  (channel_id (message_channel (reaction_message reaction)),
   message_id (reaction_message reaction)) ∈ anchor_messages (cog w) →
  participants_names (cog w) !! user_id user = None →
  length (participants_order (cog w)) < max_participants →
  lineup_channel_id (cog w) = None →
  (∀ text, send P (trace w) (message_channel (reaction_message reaction)) text = Raise e) →
  (on_reaction_add reaction user P w).2 = Raise e ∧
  user_id user ∈ participants_order (cog (on_reaction_add reaction user P w).1) ∧
  lineup_channel_id (cog (on_reaction_add reaction user P w).1) = None ∧
  ∃ text, trace (on_reaction_add reaction user P w).1
          = trace w ++ [(CSend (message_channel (reaction_message reaction)) text, RRaise e)].
Proof.
  intros Hinv Hbot Hemoji Hanchor Hout Hroom Hnone Hsend. destruct w as [s t].
  cbn [trace cog] in *.
  pose proof (add_user_keeps_inv (user_id user)
                (if is_member user then user_display_name user else user_name user)
                s Hinv) as Hinv'.
  rewrite (add_user_joins _ _ _ Hout Hroom) in Hinv'. cbn [fst] in Hinv'.
  destruct (roster_inv_lineup_text _ Hinv') as [text Htext].
  unfold on_reaction_add. unfold_M. cbn [trace cog].
  rewrite bool_decide_eq_false_2 by done. rewrite Hemoji. cbn [negb].
  unfold _is_anchor. rewrite (bool_decide_eq_true_2 _ Hanchor). cbn [negb].
  rewrite (add_user_joins _ _ _ Hout Hroom). cbn [trace cog]. cbv beta iota.
  unfold _update_lineup_message, _ensure_lineup_message, send_and_record, lineup_text.
  unfold_M. unfold_calls. cbn [trace cog set_roster lineup_channel_id].
  rewrite Hnone. cbn [truthy andb]. cbn [trace cog]. rewrite Htext. cbn [trace cog].
  rewrite Hsend. cbn [fst snd trace cog participants_order lineup_channel_id].
  split_and!; [done | | done | by eexists].
  apply elem_of_app. right. by apply list_elem_of_singleton.
Qed.

(** * Forgetting the anchors *)

Lemma reaction_event_without_anchors (P : Platform) (w : World) (ev : Event) :
  anchor_messages (cog w) = ∅ → is_reaction_event ev = true → handle ev P w = (w, Ok tt).
Proof.
  intros Hempty Hev.
  assert (Hna : ∀ c m, _is_anchor (cog w) c m = false).
  { intros c m. apply is_anchor_false. rewrite Hempty. apply not_elem_of_empty. }
  destruct ev; try discriminate Hev; cbn [handle].
  - unfold on_reaction_add. unfold_M. rewrite Hna. cbn [negb].
    case_bool_decide; [done|]. by destruct (negb _).
  - unfold on_raw_reaction_add. unfold_M. rewrite Hna. cbn [negb].
    case_bool_decide; [done|]. by destruct (negb _).
  - unfold on_reaction_remove. unfold_M. rewrite Hna. cbn [negb].
    case_bool_decide; [done|]. by destruct (negb _).
  - unfold on_raw_reaction_remove. unfold_M. rewrite Hna. cbn [negb].
    case_bool_decide; [done|]. by destruct (negb _).
Qed.

(** X12. [on_ready] returns, empties the roster and the anchors and keeps
    the recorded identity of the lineup message; after it every reaction
    event, on whatever message, is ignored until a new message is promoted. *)
Theorem on_ready_resets (P : Platform) (w : World) :
  let w1 := (on_ready P w).1 in
  (on_ready P w).2 = Ok tt ∧
  participants_order (cog w1) = [] ∧
  participants_names (cog w1) = ∅ ∧
  anchor_messages (cog w1) = ∅ ∧
  lineup_channel_id (cog w1) = lineup_channel_id (cog w) ∧
  lineup_message_id (cog w1) = lineup_message_id (cog w) ∧
  ∀ P' ev, is_reaction_event ev = true → handle ev P' w1 = (w1, Ok tt).
Proof.
  cbv zeta. split_and!; try reflexivity.
  intros P' ev Hev. by apply reaction_event_without_anchors.
Qed.

Lemma clear_forgets (P : Platform) (w : World) (interaction : Interaction) :
  defer P (trace w) = Ok tt →
  anchor_messages (cog (clear interaction P w).1) = ∅.
Proof.
  intros Hdefer. unfold clear. unfold mbind, M_bind.
  unfold bind at 1. unfold response_defer, request. rewrite Hdefer.
  unfold bind at 1. unfold modify at 1. unfold bind at 1. unfold get_cog at 1.
  unfold bind at 1. unfold modify at 1. cbn [trace cog log].
  match goal with |- anchor_messages (cog (?m P ?w0).1) = ∅ =>
    enough (H : preserves (λ s, anchor_messages s = ∅) m) by exact (H P w0 eq_refl)
  end.
  unfold_platform_calls.
  repeat first [ apply (preserves_update_lineup_message _ _ (anchors_blind _))
               | apply preserves_retract_all
               | preserves_step ].
Qed.

(** X13. After [clear] (once it is acknowledged) the old mentions are no
    longer active: every reaction event, also one on a message that was an
    anchor before, is ignored, whatever the platform did during the reset. *)
Theorem clear_deactivates_anchors (P : Platform) (w : World) (interaction : Interaction) :
  defer P (trace w) = Ok tt →
  ∀ P' ev, is_reaction_event ev = true →
    handle ev P' (clear interaction P w).1 = ((clear interaction P w).1, Ok tt).
Proof.
  intros Hdefer P' ev Hev. apply reaction_event_without_anchors; [|done].
  by apply clear_forgets.
Qed.

(** * How adding and removing compose *)

Lemma list_remove_app_last (x : Z) (l : list Z) :
  x ∉ l → list_remove x (l ++ [x]) = Some l.
Proof.
  induction l as [|y l IH]; simpl.
  - intros _. by rewrite decide_True.
  - intros [Hxy Hx]%not_elem_of_cons. rewrite decide_False by done.
    by rewrite (IH Hx).
Qed.

(** X14. Adding a user and removing the same user again gives back the
    roster as it was: the same order, the same names, nothing else touched. *)
Theorem add_then_remove_restores (s : Cog) (uid : Z) (n : string) :
  roster_inv s →
  participants_names s !! uid = None →
  length (participants_order s) < max_participants →
  (_add_user uid n s).2 = Ok true ∧
  _remove_user uid (_add_user uid n s).1 = (s, Ok true).
Proof.
  intros [Hnd Hlen Hnm] Hout Hroom. rewrite (add_user_joins _ _ _ Hout Hroom).
  split; [done|]. cbn [fst]. unfold _remove_user.
  cbn [participants_names participants_order set_roster].
  rewrite bool_decide_eq_false_2 by (rewrite lookup_insert_eq; done).
  rewrite list_remove_app_last.
  2:{ intros Hin%Hnm. rewrite Hout in Hin. by destruct Hin. }
  rewrite delete_insert_id by done. by destruct s.
Qed.

(** X15. Removing a user and adding the same user again does not give the
    old place back: the user is now last, the others keep their order, and
    the name is the one given at the second join. *)
Theorem remove_then_add_moves_last (s : Cog) (uid : Z) (n : string) :
  roster_inv s →
  uid ∈ participants_order s →
  (_remove_user uid s).2 = Ok true ∧
  _add_user uid n (_remove_user uid s).1
  = (set_roster (filter (λ y, y ≠ uid) (participants_order s) ++ [uid])
                (<[uid := n]> (participants_names s)) s,
     Ok true).
Proof.
  intros [Hnd Hlen Hnm] Hin. unfold _remove_user.
  rewrite bool_decide_eq_false_2 by (apply not_eq_None_Some; by apply Hnm).
  destruct (list_remove uid (participants_order s)) as [l'|] eqn:E.
  2:{ by apply list_remove_None in E. }
  pose proof (list_remove_length _ _ _ E) as Hl.
  pose proof (list_remove_Some_nodup _ _ _ Hnd E) as ->.
  split; [done|]. cbn [fst]. rewrite add_user_joins.
  - cbn [participants_names participants_order set_roster].
    rewrite insert_delete_eq. by destruct s.
  - apply lookup_delete_eq.
  - cbn [participants_order set_roster]. lia.
Qed.

Lemma lineup_text_ready_iff (s : Cog) :
  roster_inv s →
  ∃ text, _lineup_text s = Ok text ∧
          (ready_annotated text = true ↔
           length (participants_order s) = max_participants).
Proof.
  intros [_ _ Hnm].
  destruct (lookup_names_ok (participants_names s) (participants_order s))
    as (ns & Hns & _); [intros uid; apply Hnm|].
  unfold _lineup_text. rewrite Hns.
  destruct (participants_order s) as [|u order] eqn:Ho.
  - eexists; split; [done|]. split; [done | simpl; unfold max_participants; lia].
  - eexists; split; [done|]. case_bool_decide as Hl.
    + split; [done|]. intros _. apply ready_header_annotated.
    + rewrite plain_header_not_annotated. split; [done | intros; done].
Qed.

(** X16. The rendering after a change of the roster: after a user has
    joined, the text carries the ready annotation exactly when four were in
    the roster before; after a user has left, it never does. *)
Theorem ready_after_join_and_leave (s : Cog) (uid : Z) (n : string) :
  roster_inv s →
  (participants_names s !! uid = None →
   length (participants_order s) < max_participants →
   ∃ text, _lineup_text (_add_user uid n s).1 = Ok text ∧
           (ready_annotated text = true ↔ length (participants_order s) = 4)) ∧
  (uid ∈ participants_order s →
   ∃ text, _lineup_text (_remove_user uid s).1 = Ok text ∧
           ready_annotated text = false).
Proof.
  intros Hinv. split.
  - intros Hout Hroom.
    destruct (lineup_text_ready_iff _ (add_user_keeps_inv uid n s Hinv))
      as (text & Ht & Hr).
    exists text. split; [done|]. rewrite Hr.
    rewrite (add_user_joins _ _ _ Hout Hroom).
    cbn [fst participants_order set_roster]. rewrite length_app. simpl.
    unfold max_participants. lia.
  - intros Hin.
    destruct (lineup_text_ready_iff _ (remove_user_keeps_inv uid s Hinv))
      as (text & Ht & Hr).
    exists text. split; [done|]. apply not_true_is_false. rewrite Hr.
    destruct Hinv as [Hnd Hlen Hnm]. unfold _remove_user.
    rewrite bool_decide_eq_false_2 by (apply not_eq_None_Some; by apply Hnm).
    destruct (list_remove uid (participants_order s)) as [l'|] eqn:E.
    2:{ by apply list_remove_None in E. }
    pose proof (list_remove_length _ _ _ E) as Hl.
    cbn [fst participants_order set_roster]. lia.
Qed.

(** * Retracting the bot's reaction *)

Lemma removal_events_matching (msg : Message) (es : list EmojiObj) (t : Trace) :
  removal_events msg es t →
  Forall (λ ev, ∃ e, ev.1 = CRemoveReaction msg e ∧ e ∈ es ∧
                     _emoji_matches e reaction_emoji = true) t ∧
  length t = length (filter (λ e, _emoji_matches e reaction_emoji = true) es).
Proof.
  induction 1 as [|e es t He Hev [IH1 IH2]|e es reply t He Hr Hev [IH1 IH2]].
  - split; [constructor | done].
  - split.
    + eapply Forall_impl; [exact IH1|]. intros ev (e' & ? & ? & ?).
      exists e'. split_and!; [done | by right | done].
    + rewrite filter_cons_False by (rewrite He; done). done.
  - split.
    + constructor.
      * exists e. split_and!; [done | by left | done].
      * eapply Forall_impl; [exact IH1|]. intros ev (e' & ? & ? & ?).
        exists e'. split_and!; [done | by right | done].
    + rewrite filter_cons_True by done. simpl. by rewrite IH2.
Qed.

(** X17. [_remove_bots_reaction_on] always returns and changes no
    attribute, whatever the platform answers.  It looks the channel up,
    fetches at most the one message, and every removal it asks for is of a
    reaction of the fetched message whose emoji matches the configured one:
    it sends and edits nothing and never touches another reaction. *)
Theorem remove_bots_reaction_on_safe (P : Platform) (w : World) (c m : Z) :
  ∃ seg,
    _remove_bots_reaction_on c m P w = (mkWorld (cog w) (trace w ++ seg), Ok tt) ∧
    Forall (λ ev, ev.1 = CGetChannel c ∨
                  (∃ ch, ev.1 = CFetchMessage ch m) ∨
                  (∃ msg e, ev.1 = CRemoveReaction msg e ∧ e ∈ message_reactions msg ∧
                            _emoji_matches e reaction_emoji = true)) seg ∧
    length (filter (λ ev, is_fetch ev = true) seg) ≤ 1.
Proof.
  destruct w as [s t]. destruct (remove_bots_reaction_on_run P s t c m) as (seg & Hrun & Hseg).
  exists seg. split; [done|].
  inversion Hseg as [|ch e|ch msg t' Hev]; subst; cbn [fst snd].
  - split; [|simpl; lia]. apply Forall_singleton. by left.
  - split; [|simpl; lia].
    apply Forall_cons. split; [by left|]. apply Forall_singleton. right. left. by eexists.
  - destruct (removal_events_matching _ _ _ Hev) as [Hall _]. split.
    + constructor; [by left|]. constructor; [right; left; by eexists|].
      eapply Forall_impl; [exact Hall|]. intros ev (e & ? & ? & ?). right. right. eauto.
    + rewrite filter_cons_False by (simpl; done). rewrite filter_cons_True by done.
      lazymatch goal with |- length (_ :: ?f) ≤ 1 =>
        enough (f = []) as -> by (simpl; lia)
      end.
      clear -Hall. induction Hall as [|ev t' (e & He & _) _ IH]; [done|].
      rewrite filter_cons_False; [done|].
      destruct ev as [c r]. simpl in He. subst c. simpl. done.
Qed.

(** * The display sync when the lineup message is there *)

(** X18. When a lineup message is recorded and the platform finds its
    channel, fetches it and accepts the edit, [_update_lineup_message] edits
    that message to the rendering of the roster and nothing else: it sends
    no message and the recorded identity stays. *)
Theorem update_lineup_message_edits_in_place (P : Platform) (w : World)
    (channel ch : Channel) (c m : Z) (fetched : Message) (text : string) :
  lineup_channel_id (cog w) = Some c → c ≠ 0%Z →
  lineup_message_id (cog w) = Some m → m ≠ 0%Z →
  _lineup_text (cog w) = Ok text →
  (∀ t, get_channel P t c = Some ch) →
  (∀ t, fetch_message P t ch m = Ok fetched) →
  (∀ t, edit P t fetched text = Ok tt) →
  _update_lineup_message channel P w
  = (mkWorld (cog w)
       (trace w ++ [(CGetChannel c, RChannel ch); (CFetchMessage ch m, RMessage fetched);
                    (CGetChannel c, RChannel ch); (CFetchMessage ch m, RMessage fetched);
                    (CEdit fetched text, RDone)]),
     Ok tt).
Proof.
  intros Hc Hc0 Hm Hm0 Htext Hch Hfetch Hedit. destruct w as [s t]. cbn [trace cog] in *.
  unfold _update_lineup_message, _ensure_lineup_message, edit_or_recreate, lineup_text.
  assert (Hc0' : (c =? 0)%Z = false) by (by apply Z.eqb_neq).
  assert (Hm0' : (m =? 0)%Z = false) by (by apply Z.eqb_neq).
  unfold_M. unfold_calls.
  repeat (cbn [trace cog truthy negb andb];
          rewrite ?Hc, ?Hm, ?Hc0', ?Hm0', ?Hch, ?Hfetch, ?Htext, ?Hedit).
  by rewrite <- !app_assoc.
Qed.

(** * [cogs/messages.py] *)

Lemma for_each_constant (P : Platform) (s : Cog) (body : M unit) (seg : Trace) {A}
    (l : list A) :
  (∀ t, body P (mkWorld s t) = (mkWorld s (t ++ seg), Ok tt)) →
  ∀ t, for_each l (λ _, body) P (mkWorld s t)
       = (mkWorld s (t ++ concat (replicate (length l) seg)), Ok tt).
Proof.
  intros Hbody. induction l as [|a l IH]; intros t.
  - simpl. by rewrite app_nil_r.
  - cbn [for_each]. unfold mbind, M_bind, bind. rewrite Hbody, IH.
    simpl. by rewrite <- app_assoc.
Qed.

(** X19. The listener of [cogs/messages.py] keeps no state.  For a message
    from someone else that mentions a target role it asks for the reaction
    once for every role the message mentions (target or not), not once for
    the message; for a message of the bot, or one that mentions no target
    role, it does nothing.  A failure to add the reaction is not caught:
    the listener raises it. *)
Theorem MessageCog_on_message_reacts_per_mention (P : Platform) (w : World)
    (message : Message) :
  (user_id (message_author message) ≠ bot_user_id P →
   mentions_target_role message = true →
   (∀ t, add_reaction P t message (EmojiUnicode "✅") = Ok tt) →
   MessageCog_on_message message P w
   = (mkWorld (cog w)
        (trace w ++ concat (replicate (length (message_role_mentions message))
                              [(CPrint None, RDone);
                               (CAddReaction message (EmojiUnicode "✅"), RDone)])),
      Ok tt)) ∧
  (user_id (message_author message) = bot_user_id P ∨
   mentions_target_role message = false →
   MessageCog_on_message message P w = (w, Ok tt)) ∧
  (∀ e, user_id (message_author message) ≠ bot_user_id P →
   mentions_target_role message = true →
   add_reaction P (trace w ++ [(CPrint None, RDone)]) message (EmojiUnicode "✅") = Raise e →
   MessageCog_on_message message P w
   = (mkWorld (cog w)
        (trace w ++ [(CPrint None, RDone);
                     (CAddReaction message (EmojiUnicode "✅"), RRaise e)]),
      Raise e)).
Proof.
  destruct w as [s t]. cbn [trace cog]. split_and!.
  - intros Hbot Hm Hadd. unfold MessageCog_on_message.
    unfold mbind, M_bind, bind at 1. unfold the_bot_user_id at 1.
    rewrite bool_decide_eq_false_2 by done. rewrite Hm.
    apply for_each_constant. intros t'.
    unfold mbind, M_bind, bind, print, message_add_reaction, request, log.
    cbn [trace cog]. rewrite Hadd. by rewrite <- app_assoc.
  - intros Hguard. unfold MessageCog_on_message.
    unfold mbind, M_bind, bind at 1. unfold the_bot_user_id at 1.
    case_bool_decide as Hbot; [done|]. destruct Hguard as [?|Hm]; [done|]. rewrite Hm.
    rewrite (for_each_constant P s (ret tt) [] (message_role_mentions message)); [|intros t'].
    + f_equal. f_equal. rewrite <- (app_nil_r t) at 2. f_equal.
      induction (length _) as [|k IH]; [done | exact IH].
    + unfold ret. by rewrite app_nil_r.
  - intros e Hbot Hm Hadd. unfold MessageCog_on_message.
    unfold mbind, M_bind, bind at 1. unfold the_bot_user_id at 1.
    rewrite bool_decide_eq_false_2 by done. rewrite Hm.
    destruct (message_role_mentions message) as [|role roles] eqn:Hroles.
    { unfold mentions_target_role in Hm. by rewrite Hroles in Hm. }
    cbn [for_each]. unfold mbind, M_bind, bind, print, message_add_reaction, request, log.
    cbn [trace cog]. rewrite Hadd. by rewrite <- app_assoc.
Qed.

(** * What the lineup message shows *)

Lemma lineup_text_ext (s s' : Cog) :
  participants_order s' = participants_order s →
  participants_names s' = participants_names s →
  _lineup_text s' = _lineup_text s.
Proof. intros Ho Hn. unfold _lineup_text. by rewrite Ho, Hn. Qed.

Lemma update_lineup_message_shows (P : Platform) (w : World) (channel : Channel) :
  roster_inv (cog w) →
  ∃ text t',
    _lineup_text (cog w) = Ok text ∧
    _lineup_text (cog (_update_lineup_message channel P w).1) = Ok text ∧
    trace (_update_lineup_message channel P w).1 = trace w ++ t' ∧
    Forall (λ ev, is_send ev = true → ev.1 = CSend channel text) t' ∧
    Forall (λ ev, is_edit ev = true → ∃ msg, ev.1 = CEdit msg text) t'.
Proof.
  intros [text Ht]%roster_inv_lineup_text.
  destruct (update_lineup_message_post P w channel text Ht)
    as (t' & Htr & [Ho Hn _ Hs He _ _ _ _ _]).
  exists text, t'. split_and!; try done.
  by rewrite (lineup_text_ext _ _ Ho Hn).
Qed.

(** X20. After a join or a leave by reaction, whatever [on_reaction_add]
    and [on_reaction_remove] send or edit is the rendering of the roster as
    it is after the change, and sends go to the channel of the message that
    was reacted on: no call shows the roster as it was before. *)
Theorem display_shows_roster_after_change (P : Platform) (w : World) (reaction : Reaction)
    (user : UserObj) :
  roster_inv (cog w) →
  user_id user ≠ bot_user_id P →
  _emoji_matches (reaction_emoji_obj reaction) reaction_emoji = true →
  (channel_id (message_channel (reaction_message reaction)),
   message_id (reaction_message reaction)) ∈ anchor_messages (cog w) →
  (participants_names (cog w) !! user_id user = None →
   length (participants_order (cog w)) < max_participants →
   ∃ text t',
     _lineup_text (cog (on_reaction_add reaction user P w).1) = Ok text ∧
     trace (on_reaction_add reaction user P w).1 = trace w ++ t' ∧
     Forall (λ ev, is_send ev = true →
                   ev.1 = CSend (message_channel (reaction_message reaction)) text) t' ∧
     Forall (λ ev, is_edit ev = true → ∃ msg, ev.1 = CEdit msg text) t') ∧
  (user_id user ∈ participants_order (cog w) →
   ∃ text t',
     _lineup_text (cog (on_reaction_remove reaction user P w).1) = Ok text ∧
     trace (on_reaction_remove reaction user P w).1 = trace w ++ t' ∧
     Forall (λ ev, is_send ev = true →
                   ev.1 = CSend (message_channel (reaction_message reaction)) text) t' ∧
     Forall (λ ev, is_edit ev = true → ∃ msg, ev.1 = CEdit msg text) t').
Proof.
  intros Hinv Hbot Hemoji Hanchor. destruct w as [s t]. cbn [trace cog] in *. split.
  - intros Hout Hroom.
    pose proof (add_user_keeps_inv (user_id user)
                  (if is_member user then user_display_name user else user_name user)
                  s Hinv) as Hinv'.
    rewrite (add_user_joins _ _ _ Hout Hroom) in Hinv'. cbn [fst] in Hinv'.
    unfold on_reaction_add. unfold_M. cbn [trace cog].
    rewrite bool_decide_eq_false_2 by done. rewrite Hemoji. cbn [negb].
    unfold _is_anchor. rewrite (bool_decide_eq_true_2 _ Hanchor). cbn [negb].
    rewrite (add_user_joins _ _ _ Hout Hroom). cbn [trace cog]. cbv beta iota.
    lazymatch goal with |- context [_update_lineup_message ?ch P ?w1] =>
      destruct (update_lineup_message_shows P w1 ch Hinv') as (text & t' & _ & H1 & H2 & H3 & H4)
    end.
    by exists text, t'.
  - intros Hin.
    pose proof (remove_user_keeps_inv (user_id user) s Hinv) as Hinv'.
    destruct Hinv as [Hnd Hlen Hnm].
    unfold on_reaction_remove. unfold_M. cbn [trace cog].
    rewrite bool_decide_eq_false_2 by done. rewrite Hemoji. cbn [negb].
    unfold _is_anchor. rewrite (bool_decide_eq_true_2 _ Hanchor). cbn [negb].
    revert Hinv'. unfold _remove_user. cbn [trace cog].
    rewrite bool_decide_eq_false_2 by (apply not_eq_None_Some; by apply Hnm).
    destruct (list_remove (user_id user) (participants_order s)) as [l'|] eqn:E.
    2:{ by apply list_remove_None in E. }
    cbn [fst trace cog]. cbv beta iota. intros Hinv'.
    lazymatch goal with |- context [_update_lineup_message ?ch P ?w1] =>
      destruct (update_lineup_message_shows P w1 ch Hinv') as (text & t' & _ & H1 & H2 & H3 & H4)
    end.
    by exists text, t'.
Qed.

Lemma retraction_attempt_quiet (a : Z * Z) (seg : Trace) :
  retraction_attempt a seg →
  Forall (λ ev, is_send ev = false ∧ is_edit ev = false) seg.
Proof.
  intros Hseg. inversion Hseg as [|ch e|ch msg t' Hev]; subst.
  - by repeat constructor.
  - by repeat constructor.
  - do 2 (constructor; [done|]).
    destruct (removal_events_matching _ _ _ Hev) as [Hall _].
    eapply Forall_impl; [exact Hall|]. intros [c r] (e & He & _). simpl in He. by subst c.
Qed.

Lemma retractions_quiet (anchors : list (Z * Z)) (segs : list Trace) :
  Forall2 retraction_attempt anchors segs →
  Forall (λ ev, is_send ev = false ∧ is_edit ev = false) (concat segs).
Proof.
  induction 1 as [|a seg anchors segs Ha _ IH]; simpl; [constructor|].
  apply Forall_app. split; [by eapply retraction_attempt_quiet | done].
Qed.

(** X21. A reset only ever shows the empty lineup: every message that
    [clear] sends goes to the channel the command was invoked in and carries
    the empty-state text, and every edit it makes sets that text, whatever
    the roster was and whatever the platform answers. *)
Theorem clear_shows_empty_lineup (P : Platform) (w : World) (interaction : Interaction) :
  ∃ t', trace (clear interaction P w).1 = trace w ++ t' ∧
    Forall (λ ev, is_send ev = true →
                  ev.1 = CSend (interaction_channel interaction)
                               "📭 **Lineup is empty.** React with ✅ to join.") t' ∧
    Forall (λ ev, is_edit ev = true →
                  ∃ msg, ev.1 = CEdit msg "📭 **Lineup is empty.** React with ✅ to join.") t'.
Proof.
  destruct w as [s t]. cbn [trace cog].
  unfold clear. unfold mbind, M_bind.
  unfold bind at 1. unfold response_defer, request, log. cbn [trace cog].
  destruct (defer P t) as [[]|e].
  2:{ eexists. split; [reflexivity|]. split; by repeat constructor. }
  unfold bind at 1. unfold modify at 1. unfold bind at 1. unfold get_cog at 1.
  unfold bind at 1. unfold modify at 1. cbn [trace cog anchor_messages set_roster].
  unfold bind at 1.
  destruct (retract_all_run P (set_anchors ∅ (set_roster [] ∅ s))
              (elements (anchor_messages s)) (t ++ [(CDefer, RDone)]))
    as (segs & -> & Hsegs%retractions_quiet).
  unfold bind at 1.
  destruct (update_lineup_message_post P
              (mkWorld (set_anchors ∅ (set_roster [] ∅ s))
                       ((t ++ [(CDefer, RDone)]) ++ concat segs))
              (interaction_channel interaction) empty_text eq_refl)
    as (t2 & Htr & [_ _ _ Hs He _ _ _ _ _]).
  assert (Hquiet : ∀ pre : Trace,
    Forall (λ ev, is_send ev = false ∧ is_edit ev = false) pre →
    Forall (λ ev, is_send ev = true →
                  ev.1 = CSend (interaction_channel interaction) empty_text) pre ∧
    Forall (λ ev, is_edit ev = true → ∃ msg, ev.1 = CEdit msg empty_text) pre).
  { intros pre Hpre. split; (eapply Forall_impl; [exact Hpre|]);
      intros ev [H1 H2] H3; congruence. }
  destruct (Hquiet _ Hsegs) as [Hq1 Hq2].
  destruct (_update_lineup_message _ P _) as [w2 [[]|e]]; cbn [fst trace] in *.
  - unfold interaction_edit_original_response, request, log.
    destruct (edit_original_response P (trace w2) cleared_text) as [[]|e];
      cbn [fst trace]; rewrite Htr, <- !app_assoc;
      (eexists; split; [reflexivity|]);
      (split; (apply Forall_cons; split; [done|]);
       repeat (apply Forall_app; split; [done|]); by repeat constructor).
  - rewrite Htr, <- !app_assoc. eexists. split; [reflexivity|].
    split; (apply Forall_cons; split; [done|]); by apply Forall_app.
Qed.

(** * One lineup message *)

Lemma sync_edit_path (P : Platform) (w : World) (channel ch : Channel) (c m : Z)
    (fetched : Message) (text : string) :
  lineup_channel_id (cog w) = Some c → c ≠ 0%Z →
  lineup_message_id (cog w) = Some m → m ≠ 0%Z →
  _lineup_text (cog w) = Ok text →
  (∀ t, get_channel P t c = Some ch) →
  (∀ t, fetch_message P t ch m = Ok fetched) →
  (∀ t, edit P t fetched text = Ok tt) →
  _update_lineup_message channel P w
  = (mkWorld (cog w)
       (trace w ++ [(CGetChannel c, RChannel ch); (CFetchMessage ch m, RMessage fetched);
                    (CGetChannel c, RChannel ch); (CFetchMessage ch m, RMessage fetched);
                    (CEdit fetched text, RDone)]),
     Ok tt).
Proof.
  intros Hc Hc0 Hm Hm0 Htext Hch Hfetch Hedit. destruct w as [s t]. cbn [trace cog] in *.
  unfold _update_lineup_message, _ensure_lineup_message, edit_or_recreate, lineup_text.
  assert (Hc0' : (c =? 0)%Z = false) by (by apply Z.eqb_neq).
  assert (Hm0' : (m =? 0)%Z = false) by (by apply Z.eqb_neq).
  unfold_M. unfold_calls.
  repeat (cbn [trace cog truthy negb andb];
          rewrite ?Hc, ?Hm, ?Hc0', ?Hm0', ?Hch, ?Hfetch, ?Htext, ?Hedit).
  by rewrite <- !app_assoc.
Qed.

Lemma sync_create_path (P : Platform) (w : World) (channel ch : Channel)
    (sent fetched : Message) (text : string) :
  lineup_channel_id (cog w) = None →
  channel_id (message_channel sent) ≠ 0%Z → message_id sent ≠ 0%Z →
  _lineup_text (cog w) = Ok text →
  (∀ t, send P t channel text = Ok sent) →
  (∀ t, get_channel P t (channel_id (message_channel sent)) = Some ch) →
  (∀ t, fetch_message P t ch (message_id sent) = Ok fetched) →
  (∀ t, edit P t fetched text = Ok tt) →
  _update_lineup_message channel P w
  = (mkWorld (set_lineup (Some (channel_id (message_channel sent)))
                         (Some (message_id sent)) (cog w))
       (trace w ++ [(CSend channel text, RMessage sent);
                    (CGetChannel (channel_id (message_channel sent)), RChannel ch);
                    (CFetchMessage ch (message_id sent), RMessage fetched);
                    (CEdit fetched text, RDone)]),
     Ok tt).
Proof.
  intros Hnone Hc0 Hm0 Htext Hsend Hch Hfetch Hedit. destruct w as [s t].
  cbn [trace cog] in *.
  assert (Htext' : ∀ c m, _lineup_text (set_lineup c m s) = Ok text).
  { intros c m. by rewrite lineup_text_set_lineup. }
  unfold _update_lineup_message, _ensure_lineup_message, edit_or_recreate, send_and_record,
    lineup_text.
  apply Z.eqb_neq in Hc0, Hm0.
  unfold_M. unfold_calls.
  repeat (cbn [trace cog truthy negb andb lineup_channel_id lineup_message_id set_lineup];
          rewrite ?Hnone, ?Hc0, ?Hm0, ?Hch, ?Hfetch, ?Htext, ?Hedit, ?Hsend).
  fold (set_lineup (Some (channel_id (message_channel sent))) (Some (message_id sent)) s).
  repeat (cbn [trace cog truthy negb andb];
          rewrite ?Htext', ?Hedit).
  by rewrite <- !app_assoc.
Qed.

(** X22. With no lineup message recorded, on a platform that accepts the
    calls, [_update_lineup_message] sends one message with the rendering of
    the roster to the given channel, records the channel id and the id of
    that message, and then fetches and edits that same message once. *)
Theorem update_lineup_message_creates (P : Platform) (w : World) (channel ch : Channel)
    (sent fetched : Message) (text : string) :
  lineup_channel_id (cog w) = None →
  channel_id (message_channel sent) ≠ 0%Z → message_id sent ≠ 0%Z →
  _lineup_text (cog w) = Ok text →
  (∀ t, send P t channel text = Ok sent) →
  (∀ t, get_channel P t (channel_id (message_channel sent)) = Some ch) →
  (∀ t, fetch_message P t ch (message_id sent) = Ok fetched) →
  (∀ t, edit P t fetched text = Ok tt) →
  _update_lineup_message channel P w
  = (mkWorld (set_lineup (Some (channel_id (message_channel sent)))
                         (Some (message_id sent)) (cog w))
       (trace w ++ [(CSend channel text, RMessage sent);
                    (CGetChannel (channel_id (message_channel sent)), RChannel ch);
                    (CFetchMessage ch (message_id sent), RMessage fetched);
                    (CEdit fetched text, RDone)]),
     Ok tt).
Proof. apply sync_create_path. Qed.

(** X23. The cog keeps one lineup message: on a platform that accepts the
    calls, a sync that creates the lineup message followed by a second sync,
    also one asked for another channel, sends one message in all; the second
    sync edits the message in the channel where it was created, and the
    recorded identity is still that message. *)
Theorem two_syncs_one_lineup_message (P : Platform) (w : World)
    (channel other ch : Channel) (sent fetched : Message) (text : string) :
  lineup_channel_id (cog w) = None →
  channel_id (message_channel sent) ≠ 0%Z → message_id sent ≠ 0%Z →
  _lineup_text (cog w) = Ok text →
  (∀ t, send P t channel text = Ok sent) →
  (∀ t, get_channel P t (channel_id (message_channel sent)) = Some ch) →
  (∀ t, fetch_message P t ch (message_id sent) = Ok fetched) →
  (∀ t, edit P t fetched text = Ok tt) →
  let w1 := (_update_lineup_message channel P w).1 in
  let w2 := (_update_lineup_message other P w1).1 in
  (_update_lineup_message other P w1).2 = Ok tt ∧
  sent_messages (new_events w w2) = [sent] ∧
  filter (λ ev, is_send ev = true) (new_events w1 w2) = [] ∧
  lineup_channel_id (cog w2) = Some (channel_id (message_channel sent)) ∧
  lineup_message_id (cog w2) = Some (message_id sent).
Proof.
  intros Hnone Hc0 Hm0 Htext Hsend Hch Hfetch Hedit. cbv zeta.
  rewrite (sync_create_path P w channel ch sent fetched text) by done. cbn [fst].
  rewrite (sync_edit_path P _ other ch (channel_id (message_channel sent)) (message_id sent)
             fetched text); try done.
  cbn [fst snd cog trace]. unfold new_events. cbn [trace].
  rewrite <- !app_assoc. rewrite !drop_app_length. split_and!; try done.
  rewrite app_assoc. by rewrite drop_app_length.
Qed.

(** * A full roster *)

Lemma list_remove_subset (x : Z) (l l' : list Z) :
  list_remove x l = Some l' → ∀ y, y ∈ l' → y ∈ l.
Proof.
  revert l'. induction l as [|z l IH]; intros l'; simpl; [done|].
  case_decide.
  - intros [= <-] y Hy. by right.
  - destruct (list_remove x l) as [r|]; [|done]. intros [= <-] y [->|Hy]%elem_of_cons.
    + by left.
    + right. by apply (IH r).
Qed.

Lemma remove_user_subset uid s :
  ∀ y, y ∈ participants_order (_remove_user uid s).1 → y ∈ participants_order s.
Proof.
  unfold _remove_user. case_bool_decide; [done|].
  destruct (list_remove uid (participants_order s)) as [l'|] eqn:E; [|done].
  cbn [fst participants_order set_roster]. by apply (list_remove_subset uid).
Qed.

Lemma order_eq_blind (O : list Z) : lineup_blind (λ s, participants_order s = O).
Proof. intros c m s H. exact H. Qed.

Lemma order_sub_blind (O : list Z) :
  lineup_blind (λ s, ∀ y, y ∈ participants_order s → y ∈ O).
Proof. intros c m s H. exact H. Qed.

Ltac preserves_order Hadd Hrem :=
  repeat first
    [ apply (preserves_update_lineup_message _ _ (order_eq_blind _))
    | apply (preserves_update_lineup_message _ _ (order_sub_blind _))
    | apply preserves_retract_all
    | apply preserves_lift; intros ? ?; first [by apply Hadd | by apply Hrem]
    | apply preserves_modify; intros ? ?; cbn in *; first [done | by intros ? ?%elem_of_nil]
    | preserves_step ].

(** X24. A full roster never gains a participant: whatever event arrives
    and whatever the platform answers, every id in the roster after the
    event was in it before. *)
Theorem full_roster_gains_nobody (P : Platform) (w : World) (ev : Event) :
  max_participants ≤ length (participants_order (cog w)) →
  ∀ uid, uid ∈ participants_order (cog (handle ev P w).1) →
         uid ∈ participants_order (cog w).
Proof.
  intros Hfull.
  set (O := participants_order (cog w)) in *.
  assert (Hadd : ∀ uid n s, participants_order s = O →
                            participants_order (_add_user uid n s).1 = O).
  { intros uid n s Hs. rewrite add_user_full; [done|]. by rewrite Hs. }
  assert (Hrem : ∀ uid s, (∀ y, y ∈ participants_order s → y ∈ O) →
                          ∀ y, y ∈ participants_order (_remove_user uid s).1 → y ∈ O).
  { intros uid s Hs y Hy. by apply Hs, (remove_user_subset uid). }
  assert (Hsame : preserves (λ s, participants_order s = O) (handle ev) →
                  ∀ uid, uid ∈ participants_order (cog (handle ev P w).1) → uid ∈ O).
  { intros H uid. by rewrite (H P w eq_refl). }
  assert (Hsub : preserves (λ s, ∀ y, y ∈ participants_order s → y ∈ O) (handle ev) →
                 ∀ uid, uid ∈ participants_order (cog (handle ev P w).1) → uid ∈ O).
  { intros H. by apply (H P w). }
  destruct ev; cbn [handle] in *.
  - apply Hsub. unfold on_ready. preserves_order Hadd Hrem.
  - apply Hsame. unfold on_message. unfold_platform_calls. preserves_order Hadd Hrem.
  - apply Hsame. unfold on_reaction_add. unfold_platform_calls. preserves_order Hadd Hrem.
  - apply Hsame. unfold on_raw_reaction_add. unfold_platform_calls.
    preserves_order Hadd Hrem.
  - apply Hsub. unfold on_reaction_remove. unfold_platform_calls. preserves_order Hadd Hrem.
  - apply Hsub. unfold on_raw_reaction_remove. unfold_platform_calls.
    preserves_order Hadd Hrem.
  - apply Hsub. unfold clear. unfold_platform_calls. preserves_order Hadd Hrem.
Qed.

(** * The theorems of the event router at sample events *)

Lemma cog_anchored_inv : roster_inv cog_anchored.
Proof. apply roster_ok_inv. vm_compute. reflexivity. Qed.

Lemma cog_shown_inv : roster_inv cog_shown.
Proof. apply roster_ok_inv. vm_compute. reflexivity. Qed.

Lemma anchor_10_20 : (10, 20)%Z ∈ anchor_messages cog_anchored.
Proof. apply (bool_decide_unpack _). exact I. Qed.

Lemma on_message_ignored_witness :
  (user_id (message_author bot_message) = bot_user_id platform_ok ∨
   (∀ role, role ∈ message_role_mentions bot_message → role_id role ∉ target_role_ids)) ∧
  on_message bot_message platform_ok world_three = (world_three, Ok tt).
Proof.
  assert (H : user_id (message_author bot_message) = bot_user_id platform_ok ∨
              (∀ role, role ∈ message_role_mentions bot_message →
                       role_id role ∉ target_role_ids)) by (left; reflexivity).
  split; [exact H|]. exact (on_message_ignored platform_ok world_three bot_message H).
Defined.

Lemma on_message_promotes_witness :
  user_id (message_author call_message) ≠ bot_user_id platform_ok ∧
  mkRole 776328568036392972 ∈ message_role_mentions call_message ∧
  role_id (mkRole 776328568036392972) ∈ target_role_ids ∧
  add_reaction platform_ok (trace world_init) call_message reaction_emoji = Ok tt ∧
  _is_anchor (cog (on_message call_message platform_ok world_init).1) 10 20 = true ∧
  participants_order (cog (on_message call_message platform_ok world_init).1) = [11%Z].
Proof.
  assert (H1 : user_id (message_author call_message) ≠ bot_user_id platform_ok)
    by (intros H; discriminate H).
  assert (H2 : mkRole 776328568036392972 ∈ message_role_mentions call_message)
    by (apply list_elem_of_here).
  assert (H3 : role_id (mkRole 776328568036392972) ∈ target_role_ids)
    by (apply (bool_decide_unpack _); exact I).
  split_and!; [exact H1 | exact H2 | exact H3 | reflexivity | |].
  - exact (proj1 (proj2 (on_message_promotes platform_ok world_init call_message _
                           H1 H2 H3 eq_refl))).
  - exact (proj1 (proj2 (proj2 (on_message_promotes platform_ok world_init call_message _
                                  H1 H2 H3 eq_refl)))).
Defined.

Lemma on_reaction_add_joins_witness :
  user_id dan ≠ bot_user_id platform_ok ∧
  _emoji_matches (reaction_emoji_obj check_reaction) reaction_emoji = true ∧
  (10, 20)%Z ∈ anchor_messages (cog world_anchored) ∧
  participants_names (cog world_anchored) !! user_id dan = None ∧
  length (participants_order (cog world_anchored)) < max_participants ∧
  participants_order (cog (on_reaction_add check_reaction dan platform_ok world_anchored).1)
    = [11; 22; 33; 44]%Z ∧
  participants_names (cog (on_reaction_add check_reaction dan platform_ok world_anchored).1)
    = <[44%Z := "Dan"]> (participants_names cog_anchored).
Proof.
  assert (H1 : user_id dan ≠ bot_user_id platform_ok) by (intros H; discriminate H).
  assert (H5 : length (participants_order (cog world_anchored)) < max_participants)
    by (vm_compute; lia).
  split_and!; [exact H1 | reflexivity | exact anchor_10_20 | reflexivity | exact H5 | |].
  - exact (proj1 (on_reaction_add_joins platform_ok world_anchored check_reaction dan
                    H1 eq_refl anchor_10_20 eq_refl H5)).
  - exact (proj2 (on_reaction_add_joins platform_ok world_anchored check_reaction dan
                    H1 eq_refl anchor_10_20 eq_refl H5)).
Defined.

Lemma on_reaction_remove_leaves_witness :
  roster_inv (cog world_anchored) ∧
  user_id bob ≠ bot_user_id platform_ok ∧
  _emoji_matches (reaction_emoji_obj check_reaction) reaction_emoji = true ∧
  (10, 20)%Z ∈ anchor_messages (cog world_anchored) ∧
  user_id bob ∈ participants_order (cog world_anchored) ∧
  (user_id dan ∉ participants_order (cog world_anchored)) ∧
  participants_order (cog (on_reaction_remove check_reaction bob platform_ok world_anchored).1)
    = [11; 33]%Z ∧
  on_reaction_remove check_reaction dan platform_ok world_anchored = (world_anchored, Ok tt).
Proof.
  assert (Hb : user_id bob ≠ bot_user_id platform_ok) by (intros H; discriminate H).
  assert (Hd : user_id dan ≠ bot_user_id platform_ok) by (intros H; discriminate H).
  assert (Hin : user_id bob ∈ participants_order (cog world_anchored))
    by (apply (bool_decide_unpack _); exact I).
  assert (Hout : user_id dan ∉ participants_order (cog world_anchored))
    by (apply (bool_decide_unpack _); exact I).
  split_and!; [exact cog_anchored_inv | exact Hb | reflexivity | exact anchor_10_20
              | exact Hin | exact Hout | |].
  - exact (proj1 (proj1 (on_reaction_remove_leaves platform_ok world_anchored check_reaction
                           bob cog_anchored_inv Hb eq_refl anchor_10_20) Hin)).
  - exact (proj2 (on_reaction_remove_leaves platform_ok world_anchored check_reaction
                    dan cog_anchored_inv Hd eq_refl anchor_10_20) Hout).
Defined.


Lemma repeated_delivery_is_noop_witness :
  is_Some (participants_names (cog world_anchored) !! payload_user_id (check_payload 22)) ∧
  length (participants_order (cog world_anchored)) < max_participants ∧
  participants_names (cog world_anchored) !! user_id dan = None ∧
  (∃ t', on_raw_reaction_add (check_payload 22) platform_ok world_anchored
         = (mkWorld (cog world_anchored) (trace world_anchored ++ t'), Ok tt) ∧
         Forall (λ ev, is_lookup ev = true) t') ∧
  on_reaction_add check_reaction bob platform_ok world_anchored = (world_anchored, Ok tt) ∧
  on_reaction_remove check_reaction dan platform_ok world_anchored = (world_anchored, Ok tt).
Proof.
  assert (Hin : is_Some (participants_names (cog world_anchored) !! 22%Z)) by (by eexists).
  assert (Hroom : length (participants_order (cog world_anchored)) < max_participants)
    by (vm_compute; lia).
  destruct (repeated_delivery_is_noop platform_ok world_anchored) as (Hraw & Hrich & _ & Hrem).
  split_and!; [exact Hin | exact Hroom | reflexivity | | |].
  - exact (Hraw (check_payload 22) Hin).
  - exact (Hrich check_reaction bob Hin Hroom).
  - exact (Hrem check_reaction dan eq_refl).
Defined.

Lemma on_reaction_add_full_roster_witness :
  user_id dan ≠ bot_user_id platform_send_fails ∧
  _emoji_matches (reaction_emoji_obj check_reaction) reaction_emoji = true ∧
  (10, 20)%Z ∈ anchor_messages (cog world_full) ∧
  max_participants ≤ length (participants_order (cog world_full)) ∧
  on_reaction_add check_reaction dan platform_send_fails world_full
  = (mkWorld cog_full
       [(CSend (mkChannel 10) "⚠️ The lineup is already full (max 5).",
         RRaise (PlatformError 500))],
     Ok tt).
Proof.
  assert (H1 : user_id dan ≠ bot_user_id platform_send_fails) by (intros H; discriminate H).
  assert (H3 : (10, 20)%Z ∈ anchor_messages (cog world_full))
    by (apply (bool_decide_unpack _); exact I).
  assert (H4 : max_participants ≤ length (participants_order (cog world_full)))
    by (vm_compute; lia).
  split_and!; [exact H1 | reflexivity | exact H3 | exact H4 |].
  exact (on_reaction_add_full_roster platform_send_fails world_full check_reaction dan
           H1 eq_refl H3 H4).
Defined.

Lemma on_reaction_add_sync_failure_witness :
  roster_inv (cog world_anchored) ∧
  user_id dan ≠ bot_user_id platform_send_fails ∧
  (10, 20)%Z ∈ anchor_messages (cog world_anchored) ∧
  participants_names (cog world_anchored) !! user_id dan = None ∧
  length (participants_order (cog world_anchored)) < max_participants ∧
  lineup_channel_id (cog world_anchored) = None ∧
  (∀ text, send platform_send_fails (trace world_anchored)
                (message_channel (reaction_message check_reaction)) text
           = Raise (PlatformError 500)) ∧
  (on_reaction_add check_reaction dan platform_send_fails world_anchored).2
    = Raise (PlatformError 500) ∧
  user_id dan ∈ participants_order
                  (cog (on_reaction_add check_reaction dan platform_send_fails
                                        world_anchored).1).
Proof.
  assert (H1 : user_id dan ≠ bot_user_id platform_send_fails) by (intros H; discriminate H).
  assert (H5 : length (participants_order (cog world_anchored)) < max_participants)
    by (vm_compute; lia).
  assert (H7 : ∀ text, send platform_send_fails (trace world_anchored)
                            (message_channel (reaction_message check_reaction)) text
                       = Raise (PlatformError 500)) by reflexivity.
  split_and!; [exact cog_anchored_inv | exact H1 | exact anchor_10_20 | reflexivity
              | exact H5 | reflexivity | exact H7 | |].
  - exact (proj1 (on_reaction_add_sync_failure platform_send_fails world_anchored
                    check_reaction dan _ cog_anchored_inv H1 eq_refl anchor_10_20 eq_refl
                    H5 eq_refl H7)).
  - exact (proj1 (proj2 (on_reaction_add_sync_failure platform_send_fails world_anchored
                           check_reaction dan _ cog_anchored_inv H1 eq_refl anchor_10_20
                           eq_refl H5 eq_refl H7))).
Defined.

Lemma on_ready_resets_witness :
  is_reaction_event (EvReactionAdd check_reaction dan) = true ∧
  anchor_messages (cog (on_ready platform_ok world_shown).1) = ∅ ∧
  lineup_message_id (cog (on_ready platform_ok world_shown).1) = Some 77%Z ∧
  handle (EvReactionAdd check_reaction dan) platform_ok (on_ready platform_ok world_shown).1
  = ((on_ready platform_ok world_shown).1, Ok tt).
Proof.
  pose proof (on_ready_resets platform_ok world_shown) as H. cbv zeta in H.
  destruct H as (_ & _ & _ & Ha & _ & Hm & Hev).
  split_and!; [reflexivity | exact Ha | exact Hm |].
  exact (Hev platform_ok (EvReactionAdd check_reaction dan) eq_refl).
Defined.

Lemma clear_deactivates_anchors_witness :
  defer platform_one_gone (trace world_two_anchors) = Ok tt ∧
  is_reaction_event (EvRawReactionAdd (check_payload 44)) = true ∧
  handle (EvRawReactionAdd (check_payload 44)) platform_ok
         (clear (mkInteraction (mkChannel 10)) platform_one_gone world_two_anchors).1
  = ((clear (mkInteraction (mkChannel 10)) platform_one_gone world_two_anchors).1, Ok tt).
Proof.
  split_and!; [reflexivity | reflexivity |].
  exact (clear_deactivates_anchors platform_one_gone world_two_anchors
           (mkInteraction (mkChannel 10)) eq_refl platform_ok
           (EvRawReactionAdd (check_payload 44)) eq_refl).
Defined.

Lemma add_then_remove_restores_witness :
  roster_inv cog_three ∧
  participants_names cog_three !! 44%Z = None ∧
  length (participants_order cog_three) < max_participants ∧
  _remove_user 44 (_add_user 44 "Dan" cog_three).1 = (cog_three, Ok true).
Proof.
  assert (Hroom : length (participants_order cog_three) < max_participants)
    by (vm_compute; lia).
  split_and!; [exact cog_three_inv | reflexivity | exact Hroom |].
  exact (proj2 (add_then_remove_restores cog_three 44 "Dan" cog_three_inv eq_refl Hroom)).
Defined.

Lemma remove_then_add_moves_last_witness :
  roster_inv cog_three ∧
  11%Z ∈ participants_order cog_three ∧
  participants_order (_add_user 11 "Ann2" (_remove_user 11 cog_three).1).1
    = [22; 33; 11]%Z.
Proof.
  assert (Hin : 11%Z ∈ participants_order cog_three)
    by (apply (bool_decide_unpack _); exact I).
  split_and!; [exact cog_three_inv | exact Hin |].
  rewrite (proj2 (remove_then_add_moves_last cog_three 11 "Ann2" cog_three_inv Hin)).
  reflexivity.
Defined.

Lemma ready_after_join_and_leave_witness :
  roster_inv cog_four ∧
  participants_names cog_four !! 5%Z = None ∧
  length (participants_order cog_four) < max_participants ∧
  2%Z ∈ participants_order cog_four ∧
  (∃ text, _lineup_text (_add_user 5 "e" cog_four).1 = Ok text ∧
           ready_annotated text = true) ∧
  (∃ text, _lineup_text (_remove_user 2 cog_four).1 = Ok text ∧
           ready_annotated text = false).
Proof.
  assert (Hinv : roster_inv cog_four) by (apply roster_ok_inv; vm_compute; reflexivity).
  assert (Hroom : length (participants_order cog_four) < max_participants)
    by (vm_compute; lia).
  assert (Hin : 2%Z ∈ participants_order cog_four)
    by (apply (bool_decide_unpack _); exact I).
  split_and!; [exact Hinv | reflexivity | exact Hroom | exact Hin | |].
  - destruct (proj1 (ready_after_join_and_leave cog_four 5 "e" Hinv) eq_refl Hroom)
      as (text & Ht & Hr).
    exists text. split; [exact Ht|]. apply Hr. reflexivity.
  - exact (proj2 (ready_after_join_and_leave cog_four 2 "e" Hinv) Hin).
Defined.

Lemma update_lineup_message_edits_in_place_witness :
  lineup_channel_id (cog world_shown) = Some 10%Z ∧
  lineup_message_id (cog world_shown) = Some 77%Z ∧
  (∀ t, get_channel platform_steady t 10 = Some (mkChannel 10)) ∧
  (∀ t, fetch_message platform_steady t (mkChannel 10) 77 = Ok lineup_message) ∧
  sent_messages (trace (_update_lineup_message (mkChannel 30) platform_steady world_shown).1)
    = [] ∧
  cog (_update_lineup_message (mkChannel 30) platform_steady world_shown).1 = cog_shown.
Proof.
  assert (Hch : ∀ t, get_channel platform_steady t 10 = Some (mkChannel 10)) by reflexivity.
  assert (Hf : ∀ t, fetch_message platform_steady t (mkChannel 10) 77 = Ok lineup_message)
    by reflexivity.
  assert (Hc0 : 10%Z ≠ 0%Z) by (intros H; discriminate H).
  assert (Hm0 : 77%Z ≠ 0%Z) by (intros H; discriminate H).
  assert (Htext : ∃ text, _lineup_text (cog world_shown) = Ok text)
    by (apply roster_inv_lineup_text, cog_shown_inv).
  destruct Htext as [text Htext].
  assert (He : ∀ t, edit platform_steady t lineup_message text = Ok tt) by reflexivity.
  split_and!; [reflexivity | reflexivity | exact Hch | exact Hf | |].
  - rewrite (update_lineup_message_edits_in_place platform_steady world_shown (mkChannel 30)
               (mkChannel 10) 10 77 lineup_message text eq_refl Hc0 eq_refl Hm0 Htext
               Hch Hf He).
    reflexivity.
  - rewrite (update_lineup_message_edits_in_place platform_steady world_shown (mkChannel 30)
               (mkChannel 10) 10 77 lineup_message text eq_refl Hc0 eq_refl Hm0 Htext
               Hch Hf He).
    reflexivity.
Defined.

Lemma MessageCog_on_message_reacts_per_mention_witness :
  user_id (message_author two_role_message) ≠ bot_user_id platform_ok ∧
  mentions_target_role two_role_message = true ∧
  (∀ t, add_reaction platform_ok t two_role_message (EmojiUnicode "✅") = Ok tt) ∧
  (user_id (message_author bot_message) = bot_user_id platform_ok ∨
   mentions_target_role bot_message = false) ∧
  length (filter (λ ev, is_add_reaction ev = true)
            (trace (MessageCog_on_message two_role_message platform_ok world_init).1)) = 2 ∧
  MessageCog_on_message bot_message platform_ok world_init = (world_init, Ok tt).
Proof.
  assert (H1 : user_id (message_author two_role_message) ≠ bot_user_id platform_ok)
    by (intros H; discriminate H).
  assert (H3 : ∀ t, add_reaction platform_ok t two_role_message (EmojiUnicode "✅") = Ok tt)
    by reflexivity.
  assert (H4 : user_id (message_author bot_message) = bot_user_id platform_ok ∨
               mentions_target_role bot_message = false) by (left; reflexivity).
  destruct (MessageCog_on_message_reacts_per_mention platform_ok world_init two_role_message)
    as (Hreact & _ & _).
  destruct (MessageCog_on_message_reacts_per_mention platform_ok world_init bot_message)
    as (_ & Hnone & _).
  split_and!; [exact H1 | reflexivity | exact H3 | exact H4 | |].
  - rewrite (Hreact H1 eq_refl H3). reflexivity.
  - exact (Hnone H4).
Defined.

Lemma display_shows_roster_after_change_witness :
  roster_inv (cog world_anchored) ∧
  user_id dan ≠ bot_user_id platform_ok ∧
  (10, 20)%Z ∈ anchor_messages (cog world_anchored) ∧
  participants_names (cog world_anchored) !! user_id dan = None ∧
  length (participants_order (cog world_anchored)) < max_participants ∧
  ∃ text t',
    _lineup_text (cog (on_reaction_add check_reaction dan platform_ok world_anchored).1)
      = Ok text ∧
    trace (on_reaction_add check_reaction dan platform_ok world_anchored).1
      = trace world_anchored ++ t' ∧
    Forall (λ ev, is_send ev = true → ev.1 = CSend (mkChannel 10) text) t'.
Proof.
  assert (H1 : user_id dan ≠ bot_user_id platform_ok) by (intros H; discriminate H).
  assert (H5 : length (participants_order (cog world_anchored)) < max_participants)
    by (vm_compute; lia).
  split_and!; [exact cog_anchored_inv | exact H1 | exact anchor_10_20 | reflexivity
              | exact H5 |].
  destruct (proj1 (display_shows_roster_after_change platform_ok world_anchored
                     check_reaction dan cog_anchored_inv H1 eq_refl anchor_10_20)
                  eq_refl H5) as (text & t' & Ht & Htr & Hs & _).
  exists text, t'. split_and!; [exact Ht | exact Htr | exact Hs].
Defined.

Lemma clear_shows_empty_lineup_witness :
  ∃ t', trace (clear (mkInteraction (mkChannel 10)) platform_one_gone world_two_anchors).1
        = trace world_two_anchors ++ t' ∧
    Forall (λ ev, is_send ev = true →
                  ev.1 = CSend (mkChannel 10)
                               "📭 **Lineup is empty.** React with ✅ to join.") t'.
Proof.
  destruct (clear_shows_empty_lineup platform_one_gone world_two_anchors
              (mkInteraction (mkChannel 10))) as (t' & Htr & Hs & _).
  exists t'. split; [exact Htr | exact Hs].
Defined.

Lemma update_lineup_message_creates_witness :
  lineup_channel_id (cog world_init) = None ∧
  (∀ t, send platform_steady t (mkChannel 10) empty_text = Ok lineup_message) ∧
  (∀ t, get_channel platform_steady t 10 = Some (mkChannel 10)) ∧
  cog (_update_lineup_message (mkChannel 10) platform_steady world_init).1
  = set_lineup (Some 10%Z) (Some 77%Z) ReactionCog_init.
Proof.
  assert (Hs : ∀ t, send platform_steady t (mkChannel 10) empty_text = Ok lineup_message)
    by reflexivity.
  assert (Hch : ∀ t, get_channel platform_steady t
                       (channel_id (message_channel lineup_message)) = Some (mkChannel 10))
    by reflexivity.
  assert (Hf : ∀ t, fetch_message platform_steady t (mkChannel 10)
                      (message_id lineup_message) = Ok lineup_message) by reflexivity.
  assert (He : ∀ t, edit platform_steady t lineup_message empty_text = Ok tt) by reflexivity.
  assert (Hc0 : channel_id (message_channel lineup_message) ≠ 0%Z)
    by (intros H; discriminate H).
  assert (Hm0 : message_id lineup_message ≠ 0%Z) by (intros H; discriminate H).
  split_and!; [reflexivity | exact Hs | exact Hch |].
  rewrite (update_lineup_message_creates platform_steady world_init (mkChannel 10)
             (mkChannel 10) lineup_message lineup_message empty_text
             eq_refl Hc0 Hm0 eq_refl Hs Hch Hf He).
  reflexivity.
Defined.

Lemma two_syncs_one_lineup_message_witness :
  lineup_channel_id (cog world_init) = None ∧
  (∀ t, send platform_steady t (mkChannel 10) empty_text = Ok lineup_message) ∧
  sent_messages
    (new_events world_init
       (_update_lineup_message (mkChannel 30) platform_steady
          (_update_lineup_message (mkChannel 10) platform_steady world_init).1).1)
  = [lineup_message] ∧
  lineup_channel_id
    (cog (_update_lineup_message (mkChannel 30) platform_steady
            (_update_lineup_message (mkChannel 10) platform_steady world_init).1).1)
  = Some 10%Z.
Proof.
  assert (Hs : ∀ t, send platform_steady t (mkChannel 10) empty_text = Ok lineup_message)
    by reflexivity.
  assert (Hch : ∀ t, get_channel platform_steady t
                       (channel_id (message_channel lineup_message)) = Some (mkChannel 10))
    by reflexivity.
  assert (Hf : ∀ t, fetch_message platform_steady t (mkChannel 10)
                      (message_id lineup_message) = Ok lineup_message) by reflexivity.
  assert (He : ∀ t, edit platform_steady t lineup_message empty_text = Ok tt) by reflexivity.
  assert (Hc0 : channel_id (message_channel lineup_message) ≠ 0%Z)
    by (intros H; discriminate H).
  assert (Hm0 : message_id lineup_message ≠ 0%Z) by (intros H; discriminate H).
  pose proof (two_syncs_one_lineup_message platform_steady world_init (mkChannel 10)
                (mkChannel 30) (mkChannel 10) lineup_message lineup_message empty_text
                eq_refl Hc0 Hm0 eq_refl Hs Hch Hf He) as H.
  cbv zeta in H. destruct H as (_ & Hsent & _ & Hc & _).
  split_and!; [reflexivity | exact Hs | exact Hsent | exact Hc].
Defined.

Lemma full_roster_gains_nobody_witness :
  max_participants ≤ length (participants_order (cog world_full)) ∧
  3%Z ∈ participants_order
          (cog (handle (EvReactionRemove check_reaction bob) platform_ok world_full).1) ∧
  3%Z ∈ participants_order (cog world_full).
Proof.
  assert (H : max_participants ≤ length (participants_order (cog world_full)))
    by (vm_compute; lia).
  assert (Hafter : 3%Z ∈ participants_order
            (cog (handle (EvReactionRemove check_reaction bob) platform_ok world_full).1))
    by (apply (bool_decide_unpack _); vm_compute; exact I).
  split_and!; [exact H | exact Hafter |].
  exact (full_roster_gains_nobody platform_ok world_full
           (EvReactionRemove check_reaction bob) H 3%Z Hafter).
Defined.
